(** * The bank ledger of [examples/fastmcp/bank_data.py]

    A shallow embedding of the in-memory ledger: accounts, their
    transaction logs, the tools that create and close accounts and that
    deposit, withdraw and transfer, and the read-only tools and resources.

    - [_accounts : dict[str, Account]] is a [gmap string Account.t];
      mutating the account object a key refers to is an insertion at that
      key (every key holds its own object: [create_account] is the only
      place that stores one, and it stores a fresh one).
    - [_transaction_counter] is the counter cell, an [N].
    - Money is Python's [Decimal]: sign, integer coefficient and exponent,
      with the arithmetic of the default context (28 significant digits,
      ROUND_HALF_EVEN) written out in [_fix].
    - A tool returns its text; the store is passed in and out.
    - [datetime.now(timezone.utc)] is an input of the call that reads it.

    The amounts and balances of the tools below are finite: [Decimal] is
    the type of the finite values, and a statement about every [Decimal] is
    a statement about every finite one.  The validation also lets
    [float('inf')] through; what the two operations of a withdrawal do on
    [Decimal('Infinity')] is in [PyDecimal], apart from the tools.
    [list_accounts], the two other account resources and the prompts only
    format what is modelled here and are left out. *)

From Stdlib Require Import ZArith QArith Qpower String Ascii List Lia.
From stdpp Require Import gmap strings pretty.

Local Open Scope string_scope.
Local Open Scope Z_scope.

(** ** Decimal *)

(** A finite [Decimal]: [(-1)^_sign * _int * 10^_exp].  Python keeps the
    coefficient as a digit string; here it is the integer that string
    denotes, and [pretty] gives the string back.  The infinities are not
    values of this type; they are in [PyDecimal]. *)
Record Decimal := mkDecimal { d_sign : bool; d_int : Z; d_exp : Z }.

(** The tools receive a [float] and convert it with [Decimal(str(x))]
    before anything else; a tool of this development takes the converted
    value.  [str] of a finite float is its shortest round-trip decimal, so
    the conversion keeps the sign and keeps zero apart from non-zero: the
    validator's bound on the float ([gt=0], [ge=0]) and the test
    [initial_deposit > 0] read the same on the converted value. *)
Definition float_gt0 (d : Decimal) : bool := negb (d_sign d) && (0 <? d_int d).
Definition float_ge0 (d : Decimal) : bool :=
  (0 <=? d_int d) && (negb (d_sign d) || (d_int d =? 0)).

(** The default context. *)
Definition prec : Z := 28.

(** [len(self._int)] *)
Definition ndigits (c : Z) : Z := Z.of_nat (String.length (pretty c)).

(** The digits dropped when [c] is cut [k] places from the right call for
    rounding up under ROUND_HALF_EVEN: more than half, or exactly half with
    an odd digit before. *)
Definition round_half_even_up (c k : Z) : bool :=
  let q := c / 10 ^ k in
  let r := c mod 10 ^ k in
  (10 ^ k <? 2 * r) || ((2 * r =? 10 ^ k) && Z.odd q).

(** [Decimal._fix]: round to the context's precision.  The exponent limits
    of the context (Emax = 999999, Emin = -999999) are left out: an argument
    is the conversion of a float (at most 17 digits, exponent between -324
    and 308), a result's exponent is never below its operands', and a
    balance needs more than 10^999000 deposits to reach Emax. *)
Definition _fix (d : Decimal) : Decimal :=
  if d_int d =? 0 then d
  else
    let exp_min := ndigits (d_int d) + d_exp d - prec in
    if d_exp d <? exp_min then
      let k := exp_min - d_exp d in
      let coeff := d_int d / 10 ^ k in
      if round_half_even_up (d_int d) k then
        let coeff := coeff + 1 in
        if prec <? ndigits coeff
        then mkDecimal (d_sign d) (coeff / 10) (exp_min + 1)
        else mkDecimal (d_sign d) coeff exp_min
      else mkDecimal (d_sign d) coeff exp_min
    else d.

(** The context's Inexact signal: [_fix] dropped a non-zero digit. *)
Definition inexact (d : Decimal) : bool :=
  if d_int d =? 0 then false
  else
    let exp_min := ndigits (d_int d) + d_exp d - prec in
    if d_exp d <? exp_min
    then negb (d_int d mod 10 ^ (exp_min - d_exp d) =? 0)
    else false.

Definition signed (d : Decimal) : Z := if d_sign d then - d_int d else d_int d.

(** The coefficient, signed, at exponent [e] (for [e] at most [_exp]). *)
Definition aligned (e : Z) (d : Decimal) : Z := signed d * 10 ^ (d_exp d - e).

(** The sum before rounding: at the smaller exponent; a zero sum is
    negative only when both operands are. *)
Definition exact_add (x y : Decimal) : Decimal :=
  let e := Z.min (d_exp x) (d_exp y) in
  let v := aligned e x + aligned e y in
  let s := if v <? 0 then true else if 0 <? v then false else d_sign x && d_sign y in
  mkDecimal s (Z.abs v) e.

(** [Decimal.__add__] and [Decimal.__sub__] *)
Definition Dadd (x y : Decimal) : Decimal := _fix (exact_add x y).
Definition copy_negate (y : Decimal) : Decimal :=
  mkDecimal (negb (d_sign y)) (d_int y) (d_exp y).
Definition Dsub (x y : Decimal) : Decimal := Dadd x (copy_negate y).

(** [Decimal._cmp] and the comparisons built on it: by value. *)
Definition Dcmp (x y : Decimal) : comparison :=
  let e := Z.min (d_exp x) (d_exp y) in aligned e x ?= aligned e y.
Definition Dlt (x y : Decimal) : bool := match Dcmp x y with Lt => true | _ => false end.
Definition Dne (x y : Decimal) : bool := match Dcmp x y with Eq => false | _ => true end.

(** The number a [Decimal] denotes. *)
Definition Dval (d : Decimal) : Q := (inject_Z (signed d) * inject_Z 10 ^ d_exp d)%Q.

(** [Decimal("0.00")] *)
Definition Decimal_0_00 : Decimal := mkDecimal false 0 (-2).

(** ** Text *)

(** [s * n] *)
Fixpoint repeat_string (s : string) (n : nat) : string :=
  match n with
  | O => ""
  | S n' => s +:+ repeat_string s n'
  end.

(** ["\n".join(lines)] *)
Definition nl : string := String (ascii_of_nat 10) "".
Fixpoint join (sep : string) (lines : list string) : string :=
  match lines with
  | [] => ""
  | [l] => l
  | l :: rest => l +:+ sep +:+ join sep rest
  end.

(** [f"{n:06d}"] for the counters, which are never negative. *)
Definition format_06d (n : N) : string :=
  let s := pretty n in
  repeat_string "0" (6 - String.length s) +:+ s.

(** ["%+d" % n] *)
Definition format_plus_d (n : Z) : string :=
  (if 0 <=? n then "+" else "") +:+ pretty n.

(** [Decimal.__str__]: plain notation when the exponent is not positive and
    the number is not too small, scientific notation otherwise. *)
Definition Decimal_str (d : Decimal) : string :=
  let sign := if d_sign d then "-" else "" in
  let _int := pretty (d_int d) in
  let len := String.length _int in
  let leftdigits := d_exp d + Z.of_nat len in
  let dotplace :=
    if (d_exp d <=? 0) && (-6 <? leftdigits) then leftdigits else 1 in
  let '(intpart, fracpart) :=
    if dotplace <=? 0 then
      ("0", "." +:+ repeat_string "0" (Z.to_nat (- dotplace)) +:+ _int)
    else if Z.of_nat len <=? dotplace then
      (_int +:+ repeat_string "0" (Z.to_nat dotplace - len), "")
    else
      (substring 0 (Z.to_nat dotplace) _int,
       "." +:+ substring (Z.to_nat dotplace) (len - Z.to_nat dotplace) _int) in
  let exp :=
    if leftdigits =? dotplace then ""
    else "E" +:+ format_plus_d (leftdigits - dotplace) in
  sign +:+ intpart +:+ fracpart +:+ exp.

(** [Decimal._rescale(exp, ROUND_HALF_EVEN)] *)
Definition _rescale (d : Decimal) (exp : Z) : Decimal :=
  if d_int d =? 0 then mkDecimal (d_sign d) 0 exp
  else if exp <=? d_exp d then
    mkDecimal (d_sign d) (d_int d * 10 ^ (d_exp d - exp)) exp
  else
    let k := exp - d_exp d in
    let coeff := d_int d / 10 ^ k in
    mkDecimal (d_sign d)
      (if round_half_even_up (d_int d) k then coeff + 1 else coeff) exp.

(** [f"{d:.2f}"]: [Decimal.__format__] rescales to two places with the
    context's rounding and puts the point [leftdigits] places in. *)
Definition format_2f (d : Decimal) : string :=
  let d := _rescale d (-2) in
  let sign := if d_sign d then "-" else "" in
  let _int := pretty (d_int d) in
  let len := String.length _int in
  let dotplace := d_exp d + Z.of_nat len in
  let '(intpart, fracpart) :=
    if dotplace <? 0 then
      ("0", repeat_string "0" (Z.to_nat (- dotplace)) +:+ _int)
    else if Z.of_nat len <? dotplace then
      (_int +:+ repeat_string "0" (Z.to_nat dotplace - len), "")
    else
      (let i := substring 0 (Z.to_nat dotplace) _int in
       if String.eqb i "" then "0" else i,
       substring (Z.to_nat dotplace) (len - Z.to_nat dotplace) _int) in
  sign +:+ intpart +:+ "." +:+ fracpart.

(** ** Data *)

(** A [datetime]; what the tools print of one ([strftime], [isoformat]) is
    left to the section variables below. *)
Definition datetime := Z.

Module Transaction.
Record t := mk {
  id : string;
  account_id : string;
  amount : Decimal;
  transaction_type : string;  (* "deposit", "withdrawal", "transfer_in", "transfer_out" *)
  timestamp : datetime;
  description : string
}.
End Transaction.

Module Account.
Record t := mk {
  id : string;
  name : string;
  balance : Decimal;
  transactions : list Transaction.t;
  created_at : datetime
}.

(** [account.balance = b] and [account.transactions.append(txn)] *)
Definition set_balance (a : t) (b : Decimal) : t :=
  mk (id a) (name a) b (transactions a) (created_at a).
Definition append (a : t) (txn : Transaction.t) : t :=
  mk (id a) (name a) (balance a) (transactions a ++ [txn]) (created_at a).
End Account.

(** The module's two globals. *)
Record Bank := mkBank {
  _accounts : gmap string Account.t;
  _transaction_counter : N
}.

(** The store when the module is loaded. *)
Definition empty_bank : Bank := mkBank ∅ 0.

Definition with_accounts (st : Bank) (m : gmap string Account.t) : Bank :=
  mkBank m (_transaction_counter st).

Definition _generate_transaction_id (st : Bank) : string * Bank :=
  let n := (_transaction_counter st + 1)%N in
  ("TXN" +:+ format_06d n, mkBank (_accounts st) n).

Definition _generate_account_id (st : Bank) : string :=
  "ACC" +:+ format_06d (N.of_nat (size (_accounts st)) + 1).

(** ** Tools *)

(** [now_account] is the clock read by [Account]'s [created_at] default,
    [now_txn] the one read for the initial deposit's timestamp. *)
Definition create_account (name : string) (initial_deposit : Decimal)
    (now_account now_txn : datetime) (st : Bank) : string * Bank :=
  let account_id := _generate_account_id st in
  let account := Account.mk account_id name initial_deposit [] now_account in
  let '(account, st) :=
    if float_gt0 initial_deposit then
      let '(txn_id, st) := _generate_transaction_id st in
      let transaction :=
        Transaction.mk txn_id account_id initial_deposit "deposit" now_txn
          "Initial deposit" in
      (Account.append account transaction, st)
    else (account, st) in
  ("Account created successfully. Account ID: " +:+ account_id +:+
   ", Balance: $" +:+ format_2f (Account.balance account),
   with_accounts st (<[account_id := account]> (_accounts st))).

Definition close_account (account_id : string) (st : Bank) : string * Bank :=
  match _accounts st !! account_id with
  | None => ("Error: Account " +:+ account_id +:+ " not found.", st)
  | Some account =>
    if Dne (Account.balance account) Decimal_0_00 then
      ("Error: Cannot close account with balance $" +:+
       format_2f (Account.balance account) +:+
       ". Please withdraw all funds first.", st)
    else
      ("Account " +:+ account_id +:+ " has been closed successfully.",
       with_accounts st (delete account_id (_accounts st)))
  end.

Definition deposit (account_id : string) (amount : Decimal)
    (description : string) (now : datetime) (st : Bank) : string * Bank :=
  match _accounts st !! account_id with
  | None => ("Error: Account " +:+ account_id +:+ " not found.", st)
  | Some account =>
    let deposit_amount := amount in
    let '(txn_id, st) := _generate_transaction_id st in
    let transaction :=
      Transaction.mk txn_id account_id deposit_amount "deposit" now description in
    let account :=
      Account.set_balance account (Dadd (Account.balance account) deposit_amount) in
    let account := Account.append account transaction in
    ("Deposited $" +:+ format_2f deposit_amount +:+ " to " +:+ account_id +:+
     ". New balance: $" +:+ format_2f (Account.balance account),
     with_accounts st (<[account_id := account]> (_accounts st)))
  end.

Definition withdraw (account_id : string) (amount : Decimal)
    (description : string) (now : datetime) (st : Bank) : string * Bank :=
  match _accounts st !! account_id with
  | None => ("Error: Account " +:+ account_id +:+ " not found.", st)
  | Some account =>
    let withdrawal_amount := amount in
    if Dlt (Account.balance account) withdrawal_amount then
      ("Error: Insufficient funds. Available balance: $" +:+
       format_2f (Account.balance account), st)
    else
      let '(txn_id, st) := _generate_transaction_id st in
      let transaction :=
        Transaction.mk txn_id account_id withdrawal_amount "withdrawal" now
          description in
      let account :=
        Account.set_balance account
          (Dsub (Account.balance account) withdrawal_amount) in
      let account := Account.append account transaction in
      ("Withdrew $" +:+ format_2f withdrawal_amount +:+ " from " +:+
       account_id +:+ ". New balance: $" +:+ format_2f (Account.balance account),
       with_accounts st (<[account_id := account]> (_accounts st)))
  end.

Definition transfer (from_account_id to_account_id : string) (amount : Decimal)
    (description : string) (now : datetime) (st : Bank) : string * Bank :=
  match _accounts st !! from_account_id with
  | None => ("Error: Source account " +:+ from_account_id +:+ " not found.", st)
  | Some from_account =>
    match _accounts st !! to_account_id with
    | None =>
      ("Error: Destination account " +:+ to_account_id +:+ " not found.", st)
    | Some to_account =>
      if String.eqb from_account_id to_account_id then
        ("Error: Cannot transfer to the same account.", st)
      else
        let transfer_amount := amount in
        if Dlt (Account.balance from_account) transfer_amount then
          ("Error: Insufficient funds. Available balance: $" +:+
           format_2f (Account.balance from_account), st)
        else
          let timestamp := now in
          let '(out_id, st) := _generate_transaction_id st in
          let out_transaction :=
            Transaction.mk out_id from_account_id transfer_amount "transfer_out"
              timestamp (description +:+ " to " +:+ to_account_id) in
          let '(in_id, st) := _generate_transaction_id st in
          let in_transaction :=
            Transaction.mk in_id to_account_id transfer_amount "transfer_in"
              timestamp (description +:+ " from " +:+ from_account_id) in
          let from_account :=
            Account.set_balance from_account
              (Dsub (Account.balance from_account) transfer_amount) in
          let to_account :=
            Account.set_balance to_account
              (Dadd (Account.balance to_account) transfer_amount) in
          let from_account := Account.append from_account out_transaction in
          let to_account := Account.append to_account in_transaction in
          ("Transferred $" +:+ format_2f transfer_amount +:+ " from " +:+
           from_account_id +:+ " to " +:+ to_account_id +:+ "." +:+ nl +:+
           "Source balance: $" +:+ format_2f (Account.balance from_account) +:+ nl +:+
           "Destination balance: $" +:+ format_2f (Account.balance to_account),
           with_accounts st
             (<[to_account_id := to_account]>
               (<[from_account_id := from_account]> (_accounts st))))
    end
  end.

(** [l[-limit:]]: a negative start counts from the end and stops at the
    front; a start that is not negative (a [limit] of zero or less) counts
    from the front. *)
Definition slice_from_neg {A} (limit : Z) (l : list A) : list A :=
  let len := Z.of_nat (length l) in
  let start := if 0 <? limit then Z.max (len - limit) 0 else Z.min (- limit) len in
  drop (Z.to_nat start) l.

(** [transaction_type in ("deposit", "transfer_in")] and the sign
    [get_transaction_history] shows for it. *)
Definition is_credit (transaction_type : string) : bool :=
  String.eqb transaction_type "deposit" || String.eqb transaction_type "transfer_in".
Definition sign_of (txn : Transaction.t) : string :=
  if is_credit (Transaction.transaction_type txn) then "+" else "-".

(** ** Resources *)

Definition get_balance_resource (account_id : string) (st : Bank) : string :=
  match _accounts st !! account_id with
  | None => "0.00"
  | Some account => Decimal_str (Account.balance account)
  end.

(** ** Read-only tools *)

Section Reports.
(** [isoformat()] and [strftime('%Y-%m-%d %H:%M')] of a [datetime]. *)
Variable isoformat : datetime -> string.
Variable strftime_minute : datetime -> string.

Definition get_account_info (account_id : string) (st : Bank) : string :=
  match _accounts st !! account_id with
  | None => "Error: Account " +:+ account_id +:+ " not found."
  | Some account =>
    "Account ID: " +:+ Account.id account +:+ nl +:+
    "Name: " +:+ Account.name account +:+ nl +:+
    "Balance: $" +:+ format_2f (Account.balance account) +:+ nl +:+
    "Created: " +:+ isoformat (Account.created_at account) +:+ nl +:+
    "Transaction count: " +:+
      pretty (N.of_nat (length (Account.transactions account)))
  end.

Definition history_line (txn : Transaction.t) : string :=
  "  " +:+ strftime_minute (Transaction.timestamp txn) +:+ " | " +:+
  sign_of txn +:+ "$" +:+ format_2f (Transaction.amount txn) +:+ " | " +:+
  Transaction.description txn.

Definition get_transaction_history (account_id : string) (limit : Z)
    (st : Bank) : string :=
  match _accounts st !! account_id with
  | None => "Error: Account " +:+ account_id +:+ " not found."
  | Some account =>
    let transactions := slice_from_neg limit (Account.transactions account) in
    match transactions with
    | [] => "No transactions found for account " +:+ account_id +:+ "."
    | _ =>
      let lines :=
        ["Transaction History for " +:+ account_id +:+ ":";
         repeat_string "-" 50] in
      let lines := (lines ++ map history_line (rev transactions))%list in
      let lines := (lines ++ [repeat_string "-" 50])%list in
      let lines :=
        (lines ++
         ["Current Balance: $" +:+ format_2f (Account.balance account)])%list in
      join nl lines
    end
  end.
End Reports.

(** ** Runs of tool calls *)

Inductive Call :=
| CreateAccount (name : string) (initial_deposit : Decimal)
    (now_account now_txn : datetime)
| CloseAccount (account_id : string)
| Deposit (account_id : string) (amount : Decimal) (description : string)
    (now : datetime)
| Withdraw (account_id : string) (amount : Decimal) (description : string)
    (now : datetime)
| Transfer (from_account_id to_account_id : string) (amount : Decimal)
    (description : string) (now : datetime).

Definition call (c : Call) (st : Bank) : string * Bank :=
  match c with
  | CreateAccount name d t1 t2 => create_account name d t1 t2 st
  | CloseAccount a => close_account a st
  | Deposit a x desc t => deposit a x desc t st
  | Withdraw a x desc t => withdraw a x desc t st
  | Transfer a b x desc t => transfer a b x desc t st
  end.

(** What the argument validation lets through: [ge=0] on the initial
    deposit, [gt=0] on every other amount. *)
Definition validated (c : Call) : bool :=
  match c with
  | CreateAccount _ d _ _ => float_ge0 d
  | CloseAccount _ => true
  | Deposit _ x _ _ | Withdraw _ x _ _ | Transfer _ _ x _ _ => float_gt0 x
  end.

Fixpoint run (cs : list Call) (st : Bank) : Bank :=
  match cs with
  | [] => st
  | c :: cs' => run cs' (snd (call c st))
  end.

(** Every error text of the tools starts with "Error". *)
Definition is_error (text : string) : bool := String.prefix "Error" text.

Fixpoint all_succeed (cs : list Call) (st : Bank) : bool :=
  match cs with
  | [] => true
  | c :: cs' => negb (is_error (fst (call c st))) && all_succeed cs' (snd (call c st))
  end.

(** The call updates a balance and the context drops a non-zero digit of
    the result. *)
Definition rounds (c : Call) (st : Bank) : bool :=
  match c with
  | CreateAccount _ _ _ _ | CloseAccount _ => false
  | Deposit a x _ _ =>
    match _accounts st !! a with
    | Some account => inexact (exact_add (Account.balance account) x)
    | None => false
    end
  | Withdraw a x _ _ =>
    match _accounts st !! a with
    | Some account =>
      negb (Dlt (Account.balance account) x) &&
      inexact (exact_add (Account.balance account) (copy_negate x))
    | None => false
    end
  | Transfer a b x _ _ =>
    match _accounts st !! a, _accounts st !! b with
    | Some from_account, Some to_account =>
      negb (String.eqb a b) && negb (Dlt (Account.balance from_account) x) &&
      (inexact (exact_add (Account.balance from_account) (copy_negate x)) ||
       inexact (exact_add (Account.balance to_account) x))
    | _, _ => false
    end
  end.

Fixpoint never_rounds (cs : list Call) (st : Bank) : bool :=
  match cs with
  | [] => true
  | c :: cs' => negb (rounds c st) && never_rounds cs' (snd (call c st))
  end.

(** ** The ledger's arithmetic, as the specification words it *)

(** A transaction's amount with its sign: deposits and incoming transfers
    count positive, withdrawals and outgoing transfers negative. *)
Definition signed_amount (txn : Transaction.t) : Q :=
  if is_credit (Transaction.transaction_type txn)
  then Dval (Transaction.amount txn)
  else (- Dval (Transaction.amount txn))%Q.

Fixpoint signed_sum (txns : list Transaction.t) : Q :=
  match txns with
  | [] => 0%Q
  | txn :: rest => (signed_amount txn + signed_sum rest)%Q
  end.

(** Deposits minus withdrawals of a run. *)
Definition net_amount (c : Call) : Q :=
  match c with
  | Deposit _ x _ _ => Dval x
  | Withdraw _ x _ _ => (- Dval x)%Q
  | _ => 0%Q
  end.
Fixpoint net_sum (cs : list Call) : Q :=
  match cs with
  | [] => 0%Q
  | c :: cs' => (net_amount c + net_sum cs')%Q
  end.

(** A deposit to or a withdrawal from the account [account_id]. *)
Definition moves (account_id : string) (c : Call) : bool :=
  match c with
  | Deposit a _ _ _ | Withdraw a _ _ _ => String.eqb a account_id
  | _ => false
  end.

(** The newest [n] entries of a chronological list, newest first. *)
Definition most_recent {A} (n : nat) (l : list A) : list A := take n (rev l).

Definition ends_with (suffix text : string) : bool :=
  String.prefix (String.rev suffix) (String.rev text).

(** ** Invariants *)

(** A well-formed coefficient and a value that is not negative. *)
Definition nonneg (d : Decimal) : Prop := 0 <= d_int d /\ 0 <= signed d.

(** Every balance of the store is not negative. *)
Definition balances_nonneg (st : Bank) : Prop :=
  map_Forall (fun _ account => nonneg (Account.balance account)) (_accounts st).

(** Every balance of the store is the signed sum of its account's log. *)
Definition ledger_exact (st : Bank) : Prop :=
  map_Forall
    (fun _ account =>
       (Dval (Account.balance account) == signed_sum (Account.transactions account))%Q)
    (_accounts st).

(** ** Example values *)

(** [Decimal(str(x))] for the floats of the examples. *)
Definition d_0 : Decimal := mkDecimal false 0 (-1).        (* 0.0 *)
Definition d_1 : Decimal := mkDecimal false 10 (-1).       (* 1.0 *)
Definition d_20 : Decimal := mkDecimal false 200 (-1).     (* 20.0 *)
Definition d_25 : Decimal := mkDecimal false 250 (-1).     (* 25.0 *)
Definition d_50 : Decimal := mkDecimal false 500 (-1).     (* 50.0 *)
Definition d_100 : Decimal := mkDecimal false 1000 (-1).   (* 100.0 *)
Definition d_10_25 : Decimal := mkDecimal false 1025 (-2). (* 10.25 *)
Definition d_1e28 : Decimal := mkDecimal false 1 28.       (* 1e+28 *)
Definition d_1e29 : Decimal := mkDecimal false 1 29.       (* 1e+29 *)

(** Alice with 100.00 and Bob with 50.00. *)
Definition alice_bob : Bank :=
  run [CreateAccount "Alice" d_100 0 0; CreateAccount "Bob" d_50 1 1] empty_bank.

(** A test user with 10.00. *)
Definition test_user : Bank :=
  run [CreateAccount "Test User" (mkDecimal false 100 (-1)) 0 0] empty_bank.

(** ** Logs *)

(** The transaction [txn] is entry [i] of the log of the account under
    [account_id]. *)
Definition logged (st : Bank) (account_id : string) (i : nat)
    (txn : Transaction.t) : Prop :=
  exists account,
    _accounts st !! account_id = Some account /\
    Account.transactions account !! i = Some txn.

(** The id of the transaction numbered [k]. *)
Definition txn_id (k : N) : string := "TXN" +:+ format_06d k.

(** Every logged transaction carries a number the counter has passed, and
    no two entries carry the same id. *)
Definition txn_ids_unique (st : Bank) : Prop :=
  (forall id i txn, logged st id i txn ->
     exists k, (1 <= k <= _transaction_counter st)%N /\ Transaction.id txn = txn_id k) /\
  (forall id1 i1 txn1 id2 i2 txn2,
     logged st id1 i1 txn1 -> logged st id2 i2 txn2 ->
     Transaction.id txn1 = Transaction.id txn2 -> id1 = id2 /\ i1 = i2).

(** An account sits under its own id, and so do its transactions. *)
Definition well_keyed (st : Bank) : Prop :=
  map_Forall
    (fun key account =>
       Account.id account = key /\
       Forall (fun txn => Transaction.account_id txn = key)
         (Account.transactions account) /\
       exists j, (1 <= j)%N /\ key = "ACC" +:+ format_06d j)
    (_accounts st).

Definition is_close (c : Call) : bool :=
  match c with CloseAccount _ => true | _ => false end.
Definition is_create (c : Call) : bool :=
  match c with CreateAccount _ _ _ _ => true | _ => false end.

(** The ids [ACC000001] ... of the first [n] accounts are the keys. *)
Definition keys_sequential (st : Bank) : Prop :=
  forall key,
    is_Some (_accounts st !! key) <->
    exists j, (1 <= j <= N.of_nat (size (_accounts st)))%N /\
              key = "ACC" +:+ format_06d j.

(** The transaction ids an accepted call takes. *)
Definition issues (c : Call) : N :=
  match c with
  | CreateAccount _ d _ _ => if float_gt0 d then 1 else 0
  | CloseAccount _ => 0
  | Deposit _ _ _ _ | Withdraw _ _ _ _ => 1
  | Transfer _ _ _ _ _ => 2
  end.

(** ** A balance update of one account *)

(** The call updates the balance of the account under [id] and the context
    drops a non-zero digit of that balance. *)
Definition rounds_at (id : string) (c : Call) (st : Bank) : bool :=
  match c with
  | CreateAccount _ _ _ _ | CloseAccount _ => false
  | Deposit a _ _ _ | Withdraw a _ _ _ => String.eqb a id && rounds c st
  | Transfer a b x _ _ =>
    match _accounts st !! a, _accounts st !! b with
    | Some from_account, Some to_account =>
      negb (String.eqb a b) && negb (Dlt (Account.balance from_account) x) &&
      ((String.eqb a id &&
        inexact (exact_add (Account.balance from_account) (copy_negate x))) ||
       (String.eqb b id &&
        inexact (exact_add (Account.balance to_account) x)))
    | _, _ => false
    end
  end.

(** The call is a [create_account] that issues [id]. *)
Definition creates (id : string) (c : Call) (st : Bank) : bool :=
  is_create c && String.eqb (_generate_account_id st) id.

(** Along the run [cs] from [st]: whether a balance update of the account
    under [id] was rounded since that account was created.  A
    [create_account] that issues [id] puts a new account there and starts
    afresh; updates of other accounts do not count. *)
Fixpoint rounded_since_creation (id : string) (cs : list Call) (st : Bank)
    (sofar : bool) : bool :=
  match cs with
  | [] => sofar
  | c :: cs' =>
    rounded_since_creation id cs' (snd (call c st))
      (if creates id c st then false else sofar || rounds_at id c st)
  end.

(** A balance is the signed sum of its account's log. *)
Definition exact_at (st : Bank) (id : string) : Prop :=
  forall account, _accounts st !! id = Some account ->
    (Dval (Account.balance account) == signed_sum (Account.transactions account))%Q.

(** ** The special value *)

(** [Decimal(str(float('inf')))] is [Decimal('Infinity')]: a [Decimal] of
    Python is finite or an infinity ([NaN] does not pass [gt=0] or [ge=0]
    and no operation of the tools returns one). *)
Inductive PyDecimal :=
| Fin (d : Decimal)
| Inf (negative : bool).

(** [Decimal._isinfinity] *)
Definition _isinfinity (x : PyDecimal) : Z :=
  match x with
  | Fin _ => 0
  | Inf false => 1
  | Inf true => -1
  end.

(** [Decimal._cmp] with a special operand compares [_isinfinity]; [<] on
    it. *)
Definition Py_cmp (x y : PyDecimal) : comparison :=
  match x, y with
  | Fin a, Fin b => Dcmp a b
  | _, _ => _isinfinity x ?= _isinfinity y
  end.
Definition Py_lt (x y : PyDecimal) : bool :=
  match Py_cmp x y with Lt => true | _ => false end.

(** [Decimal.__add__] and [__sub__]: an infinity absorbs; infinities of
    opposite signs signal InvalidOperation, which the default context
    traps: the operation raises ([None]). *)
Definition Py_add (x y : PyDecimal) : option PyDecimal :=
  match x, y with
  | Fin a, Fin b => Some (Fin (Dadd a b))
  | Inf s, Inf s' => if Bool.eqb s s' then Some (Inf s) else None
  | Inf s, Fin _ => Some (Inf s)
  | Fin _, Inf s => Some (Inf s)
  end.
Definition Py_negate (y : PyDecimal) : PyDecimal :=
  match y with
  | Fin b => Fin (copy_negate b)
  | Inf s => Inf (negb s)
  end.
Definition Py_sub (x y : PyDecimal) : option PyDecimal := Py_add x (Py_negate y).

(** * Decimal arithmetic *)

Lemma Q10_neq0 : ~ (inject_Z 10 == 0)%Q.
Proof. discriminate. Qed.

Lemma Q10_pow_pos e : (0 < inject_Z 10 ^ e)%Q.
Proof. apply Qpower_0_lt. reflexivity. Qed.

(** Moving [n] places between coefficient and exponent keeps the value. *)
Lemma shift_val (a n e : Z) :
  0 <= n ->
  (inject_Z (a * 10 ^ n) * inject_Z 10 ^ e == inject_Z a * inject_Z 10 ^ (n + e))%Q.
Proof.
  intros Hn. rewrite inject_Z_mult, Zpower_Qpower by assumption.
  rewrite Qpower_plus by apply Q10_neq0. ring.
Qed.

Lemma aligned_val e d :
  e <= d_exp d -> (inject_Z (aligned e d) * inject_Z 10 ^ e == Dval d)%Q.
Proof.
  intros He. unfold aligned, Dval. rewrite shift_val by lia.
  replace (d_exp d - e + e) with (d_exp d) by lia. reflexivity.
Qed.

Lemma signed_exact_add x y :
  signed (exact_add x y) =
  aligned (Z.min (d_exp x) (d_exp y)) x + aligned (Z.min (d_exp x) (d_exp y)) y.
Proof.
  unfold exact_add, signed; simpl.
  set (v := aligned _ x + aligned _ y).
  destruct (Z.ltb_spec v 0); [lia|].
  destruct (Z.ltb_spec 0 v); [lia|].
  assert (v = 0) as -> by lia. destruct (d_sign x && d_sign y); reflexivity.
Qed.

Lemma Dval_exact_add x y : (Dval (exact_add x y) == Dval x + Dval y)%Q.
Proof.
  unfold Dval at 1. rewrite signed_exact_add. cbn [d_exp exact_add].
  rewrite inject_Z_plus, Qmult_plus_distr_l.
  rewrite !aligned_val by lia. reflexivity.
Qed.

Lemma Dval_copy_negate y : (Dval (copy_negate y) == - Dval y)%Q.
Proof.
  unfold Dval, copy_negate, signed; simpl.
  destruct (d_sign y); simpl; rewrite ?inject_Z_opp; ring.
Qed.

(** Without the Inexact signal, rounding keeps the value. *)
Lemma fix_val d : inexact d = false -> (Dval (_fix d) == Dval d)%Q.
Proof.
  unfold inexact, _fix.
  destruct (d_int d =? 0); [reflexivity|].
  set (exp_min := ndigits (d_int d) + d_exp d - prec).
  destruct (Z.ltb_spec (d_exp d) exp_min) as [Hlt|]; [|reflexivity].
  intros Hr. apply negb_false_iff, Z.eqb_eq in Hr.
  set (k := exp_min - d_exp d) in *.
  assert (0 < 10 ^ k) by (apply Z.pow_pos_nonneg; lia).
  unfold round_half_even_up. fold k. rewrite Hr.
  destruct (Z.ltb_spec (10 ^ k) (2 * 0)); [lia|].
  destruct (Z.eqb_spec (2 * 0) (10 ^ k)); [lia|]. simpl.
  assert (Hc : d_int d = d_int d / 10 ^ k * 10 ^ k).
  { rewrite (Z.div_mod (d_int d) (10 ^ k)) at 1 by lia. lia. }
  unfold Dval, signed; simpl.
  replace exp_min with (k + d_exp d) by (unfold k; lia).
  destruct (d_sign d).
  - rewrite <- shift_val by (unfold k; lia).
    rewrite Z.mul_opp_l, <- Hc. reflexivity.
  - rewrite <- shift_val by (unfold k; lia). rewrite <- Hc. reflexivity.
Qed.

(** A coefficient below [10^n] is written with at most [n] digits. *)
Lemma pretty_N_go_length (n : nat) : forall (x : N) (s : string),
  (x < 10 ^ N.of_nat n)%N ->
  (String.length (pretty_N_go x s) <= n + String.length s)%nat.
Proof.
  induction n as [|n IH]; intros x s Hx.
  - assert (x = 0%N) as -> by (simpl in Hx; lia). rewrite pretty_N_go_0. lia.
  - destruct (N.eq_dec x 0%N) as [->|Hne]; [rewrite pretty_N_go_0; lia|].
    rewrite pretty_N_go_step by lia.
    etransitivity; [apply IH|simpl; lia].
    apply N.Div0.div_lt_upper_bound.
    rewrite Nat2N.inj_succ, N.pow_succ_r' in Hx. lia.
Qed.

Lemma ndigits_le (c : Z) (n : nat) :
  0 < c < 10 ^ Z.of_nat n -> ndigits c <= Z.of_nat n.
Proof.
  intros [Hpos Hlt]. unfold ndigits. destruct c as [|p|p]; try lia.
  change (pretty (Z.pos p)) with (pretty (N.pos p)).
  unfold pretty, pretty_N. destruct (decide (N.pos p = 0%N)); [lia|].
  pose proof (pretty_N_go_length n (N.pos p) "") as H. simpl in H.
  assert (N.pos p < 10 ^ N.of_nat n)%N; [|lia].
  apply N2Z.inj_lt. rewrite N2Z.inj_pow. simpl. rewrite nat_N_Z. exact Hlt.
Qed.

(** A coefficient of at most 28 digits is within the context: [_fix]
    returns it as it is, with no signal. *)
Lemma fits_prec d :
  0 <= d_int d < 10 ^ prec -> inexact d = false /\ _fix d = d.
Proof.
  intros Hc. unfold inexact, _fix.
  destruct (Z.eqb_spec (d_int d) 0); [split; reflexivity|].
  assert (ndigits (d_int d) <= prec).
  { apply (ndigits_le (d_int d) 28). change (Z.of_nat 28) with prec. lia. }
  destruct (Z.ltb_spec (d_exp d) (ndigits (d_int d) + d_exp d - prec)); [lia|].
  split; reflexivity.
Qed.

Lemma small_sum_exact x y :
  Z.abs (aligned (Z.min (d_exp x) (d_exp y)) x +
         aligned (Z.min (d_exp x) (d_exp y)) y) < 10 ^ prec ->
  inexact (exact_add x y) = false /\ Dadd x y = exact_add x y.
Proof.
  intros H. apply fits_prec. unfold exact_add; simpl. lia.
Qed.

Lemma Dadd_exact x y :
  inexact (exact_add x y) = false -> (Dval (Dadd x y) == Dval x + Dval y)%Q.
Proof. intros H. unfold Dadd. rewrite fix_val by assumption. apply Dval_exact_add. Qed.

Lemma Dsub_exact x y :
  inexact (exact_add x (copy_negate y)) = false ->
  (Dval (Dsub x y) == Dval x - Dval y)%Q.
Proof.
  intros H. unfold Dsub. rewrite Dadd_exact by assumption.
  rewrite Dval_copy_negate. reflexivity.
Qed.

(** The comparisons of the code are those of the denoted numbers. *)
Lemma Dlt_spec x y : Dlt x y = true <-> (Dval x < Dval y)%Q.
Proof.
  unfold Dlt, Dcmp. set (e := Z.min (d_exp x) (d_exp y)).
  rewrite <- (aligned_val e x), <- (aligned_val e y) by lia.
  pose proof (Q10_pow_pos e) as Hp.
  destruct (Z.compare_spec (aligned e x) (aligned e y)) as [Heq|Hlt|Hgt].
  - rewrite Heq. split; [discriminate | intros H; exfalso; revert H; apply Qlt_irrefl].
  - split; [intros _ | reflexivity].
    apply Qmult_lt_r; [assumption | rewrite <- Zlt_Qlt; assumption].
  - split; [discriminate | intros H; exfalso].
    apply Qmult_lt_r in H; [|assumption]. rewrite <- Zlt_Qlt in H. lia.
Qed.

Lemma Dne_spec x y : Dne x y = false <-> (Dval x == Dval y)%Q.
Proof.
  unfold Dne, Dcmp. set (e := Z.min (d_exp x) (d_exp y)).
  rewrite <- (aligned_val e x), <- (aligned_val e y) by lia.
  pose proof (Q10_pow_pos e) as Hp.
  assert (Hne : ~ (inject_Z 10 ^ e == 0)%Q).
  { intros H0. rewrite H0 in Hp. revert Hp. apply Qlt_irrefl. }
  destruct (Z.compare_spec (aligned e x) (aligned e y)) as [Heq|Hlt|Hgt].
  - rewrite Heq. split; reflexivity.
  - split; [discriminate | intros H; exfalso].
    apply Qmult_inj_r in H; [|assumption]. rewrite inject_Z_injective in H. lia.
  - split; [discriminate | intros H; exfalso].
    apply Qmult_inj_r in H; [|assumption]. rewrite inject_Z_injective in H. lia.
Qed.

Lemma Dval_0_00 : (Dval Decimal_0_00 == 0)%Q.
Proof. reflexivity. Qed.

Lemma nonneg_val d : nonneg d -> (0 <= Dval d)%Q.
Proof.
  intros [_ Hs]. unfold Dval. apply Qmult_le_0_compat.
  - change 0%Q with (inject_Z 0). rewrite <- Zle_Qle. assumption.
  - apply Qlt_le_weak, Q10_pow_pos.
Qed.

Lemma float_ge0_nonneg d : float_ge0 d = true -> nonneg d.
Proof.
  unfold float_ge0, nonneg, signed. intros H.
  apply andb_true_iff in H as [H1 H2]. apply Z.leb_le in H1.
  destruct (d_sign d); simpl in H2; [apply Z.eqb_eq in H2|]; lia.
Qed.

Lemma float_gt0_signed d : float_gt0 d = true -> 0 <= d_int d /\ 0 < signed d.
Proof.
  unfold float_gt0, signed. intros H.
  apply andb_true_iff in H as [H1 H2]. apply Z.ltb_lt in H2.
  destruct (d_sign d); [discriminate | lia].
Qed.

Lemma float_gt0_val d : float_gt0 d = true -> (0 < Dval d)%Q.
Proof.
  intros H. apply float_gt0_signed in H as [_ H]. unfold Dval.
  apply Qmult_lt_0_compat; [|apply Q10_pow_pos].
  change 0%Q with (inject_Z 0). rewrite <- Zlt_Qlt. assumption.
Qed.

(** The validated initial deposit that fails [initial_deposit > 0] is zero. *)
Lemma float_ge0_not_gt0 d :
  float_ge0 d = true -> float_gt0 d = false -> (Dval d == 0)%Q.
Proof.
  unfold float_ge0, float_gt0, Dval, signed. intros H1 H2.
  apply andb_true_iff in H1 as [Ha Hb]. apply Z.leb_le in Ha.
  assert (d_int d = 0) as ->.
  { destruct (d_sign d); simpl in *.
    - apply Z.eqb_eq in Hb. assumption.
    - apply Z.ltb_ge in H2. lia. }
  destruct (d_sign d); simpl; apply Qmult_0_l.
Qed.

Lemma fix_nonneg d : nonneg d -> nonneg (_fix d).
Proof.
  unfold nonneg, _fix, signed. intros [Hc Hs].
  destruct (Z.eqb_spec (d_int d) 0) as [|Hne]; [tauto|].
  assert (Hsg : d_sign d = false) by (destruct (d_sign d); [lia | reflexivity]).
  set (exp_min := ndigits (d_int d) + d_exp d - prec).
  destruct (Z.ltb_spec (d_exp d) exp_min); [|tauto].
  set (k := exp_min - d_exp d).
  assert (0 < 10 ^ k) by (apply Z.pow_pos_nonneg; unfold k; lia).
  assert (0 <= d_int d / 10 ^ k) by (apply Z.div_pos; lia).
  assert (0 <= (d_int d / 10 ^ k + 1) / 10) by (apply Z.div_pos; lia).
  destruct (round_half_even_up (d_int d) k);
    [destruct (prec <? ndigits (d_int d / 10 ^ k + 1))|];
    simpl; rewrite Hsg; lia.
Qed.

Lemma aligned_nonneg e d : 0 <= signed d -> 0 <= aligned e d.
Proof.
  intros H. unfold aligned. apply Z.mul_nonneg_nonneg; [assumption|].
  apply Z.pow_nonneg. lia.
Qed.

Lemma exact_add_nonneg x y :
  0 <= aligned (Z.min (d_exp x) (d_exp y)) x + aligned (Z.min (d_exp x) (d_exp y)) y ->
  nonneg (exact_add x y).
Proof.
  intros H. split; [unfold exact_add; simpl; lia|].
  rewrite signed_exact_add. assumption.
Qed.

Lemma Dadd_nonneg x y : 0 <= signed x -> 0 <= signed y -> nonneg (Dadd x y).
Proof.
  intros Hx Hy. apply fix_nonneg, exact_add_nonneg.
  pose proof (aligned_nonneg (Z.min (d_exp x) (d_exp y)) x Hx).
  pose proof (aligned_nonneg (Z.min (d_exp x) (d_exp y)) y Hy). lia.
Qed.

Lemma aligned_copy_negate e y : aligned e (copy_negate y) = - aligned e y.
Proof.
  unfold aligned, copy_negate, signed; simpl. destruct (d_sign y); simpl; lia.
Qed.

Lemma Dsub_nonneg x y : Dlt x y = false -> nonneg (Dsub x y).
Proof.
  intros Hlt. apply fix_nonneg, exact_add_nonneg.
  cbn [copy_negate d_exp]. rewrite aligned_copy_negate.
  unfold Dlt, Dcmp in Hlt.
  destruct (Z.compare_spec (aligned (Z.min (d_exp x) (d_exp y)) x)
              (aligned (Z.min (d_exp x) (d_exp y)) y)); (discriminate || lia).
Qed.

Lemma Dval_zero_int d : (Dval d == 0)%Q -> d_int d = 0.
Proof.
  unfold Dval. intros H. apply Qmult_integral in H as [H|H].
  - change 0%Q with (inject_Z 0) in H. rewrite inject_Z_injective in H.
    unfold signed in H. destruct (d_sign d); lia.
  - exfalso. pose proof (Q10_pow_pos (d_exp d)) as Hp. rewrite H in Hp.
    revert Hp. apply Qlt_irrefl.
Qed.

(** A zero is printed [0.00] only when positive with exponent -2. *)
Lemma Decimal_str_zero s e :
  Decimal_str (mkDecimal s 0 e) = "0.00" <-> s = false /\ e = -2.
Proof.
  split; [|intros [-> ->]; reflexivity].
  unfold Decimal_str. cbn [d_sign d_int d_exp].
  change (pretty 0) with "0". change (String.length "0") with 1%nat.
  change (Z.of_nat 1) with 1.
  intros H.
  destruct (Z.leb_spec e 0); destruct (Z.ltb_spec (-6) (e + 1)); cbn [andb] in H.
  - assert (He : e = -6 \/ e = -5 \/ e = -4 \/ e = -3 \/ e = -2 \/ e = -1 \/ e = 0) by lia.
    destruct He as [->|[->|[->|[->|[->|[->| ->]]]]]];
      destruct s; vm_compute in H; try discriminate H. split; reflexivity.
  - exfalso. destruct (Z.eqb_spec (e + 1) 1); [lia|].
    destruct s; simpl in H; discriminate H.
  - exfalso. destruct (Z.eqb_spec (e + 1) 1); [lia|].
    destruct s; simpl in H; discriminate H.
  - lia.
Qed.

(** * The ledger *)

(** ** Balances are never negative *)

Lemma call_balances_nonneg c st :
  validated c = true -> balances_nonneg st -> balances_nonneg (snd (call c st)).
Proof.
  unfold balances_nonneg. intros Hv Hinv.
  destruct c as [name d t1 t2|a|a x desc t|a x desc t|a b x desc t]; simpl in *.
  - unfold create_account.
    destruct (float_gt0 d); simpl; apply map_Forall_insert_2;
      simpl; auto using float_ge0_nonneg.
  - unfold close_account. destruct (_accounts st !! a) as [acc|]; [|assumption].
    destruct (Dne _ _); simpl; [assumption|]. apply map_Forall_delete. assumption.
  - unfold deposit. destruct (_accounts st !! a) as [acc|] eqn:Ha; [|assumption].
    simpl. apply map_Forall_insert_2; [|assumption]. simpl.
    apply Dadd_nonneg; [apply (Hinv _ _ Ha) | apply float_gt0_signed in Hv; lia].
  - unfold withdraw. destruct (_accounts st !! a) as [acc|] eqn:Ha; [|assumption].
    destruct (Dlt _ _) eqn:Hlt; [assumption|].
    simpl. apply map_Forall_insert_2; [|assumption]. simpl.
    apply Dsub_nonneg. assumption.
  - unfold transfer. destruct (_accounts st !! a) as [acc|] eqn:Ha; [|assumption].
    destruct (_accounts st !! b) as [acc'|] eqn:Hb; [|assumption].
    destruct (String.eqb a b); [assumption|].
    destruct (Dlt _ _) eqn:Hlt; [assumption|].
    simpl. apply map_Forall_insert_2; [|apply map_Forall_insert_2; [|assumption]]; simpl.
    + apply Dadd_nonneg; [apply (Hinv _ _ Hb) | apply float_gt0_signed in Hv; lia].
    + apply Dsub_nonneg. assumption.
Qed.

Lemma run_balances_nonneg cs : forall st,
  forallb validated cs = true -> balances_nonneg st -> balances_nonneg (run cs st).
Proof.
  induction cs as [|c cs IH]; intros st Hv Hinv; simpl in *; [assumption|].
  apply andb_true_iff in Hv as [Hc Hcs].
  apply IH; [assumption|]. apply call_balances_nonneg; assumption.
Qed.

(** C7: from the empty store, after any run of validated calls, every
    account in the store has a balance that is not negative.  The runs
    include all their prefixes, so this is the balance after every call. *)
Theorem balance_never_negative cs id account :
  forallb validated cs = true ->
  _accounts (run cs empty_bank) !! id = Some account ->
  (0 <= Dval (Account.balance account))%Q.
Proof.
  intros Hv Hl. apply nonneg_val.
  apply (run_balances_nonneg cs empty_bank Hv) in Hl; [assumption|].
  unfold balances_nonneg, empty_bank; simpl. apply map_Forall_empty.
Qed.

(** ** Balances and transaction logs *)

Lemma signed_sum_app txns txn :
  (signed_sum (txns ++ [txn]) == signed_sum txns + signed_amount txn)%Q.
Proof.
  induction txns as [|t txns IH]; simpl; [ring|]. rewrite IH. ring.
Qed.

Lemma call_ledger_exact c st :
  validated c = true -> rounds c st = false ->
  ledger_exact st -> ledger_exact (snd (call c st)).
Proof.
  unfold ledger_exact. intros Hv Hr Hinv.
  destruct c as [name d t1 t2|a|a x desc t|a x desc t|a b x desc t]; simpl in *.
  - unfold create_account.
    destruct (float_gt0 d) eqn:Hd; simpl; (apply map_Forall_insert_2; [|assumption]); simpl.
    + unfold signed_amount; simpl. ring.
    + apply float_ge0_not_gt0; assumption.
  - unfold close_account. destruct (_accounts st !! a) as [acc|]; [|assumption].
    destruct (Dne _ _); simpl; [assumption|]. apply map_Forall_delete. assumption.
  - unfold deposit. destruct (_accounts st !! a) as [acc|] eqn:Ha; [|assumption].
    simpl. apply map_Forall_insert_2; [|assumption]. simpl.
    rewrite signed_sum_app, Dadd_exact by assumption.
    rewrite (Hinv _ _ Ha). unfold signed_amount; simpl. reflexivity.
  - unfold withdraw. destruct (_accounts st !! a) as [acc|] eqn:Ha; [|assumption].
    destruct (Dlt _ _) eqn:Hlt; [assumption|].
    simpl in *. apply map_Forall_insert_2; [|assumption]. simpl.
    rewrite signed_sum_app, Dsub_exact by assumption.
    rewrite (Hinv _ _ Ha). unfold signed_amount; simpl. reflexivity.
  - unfold transfer. destruct (_accounts st !! a) as [acc|] eqn:Ha; [|assumption].
    destruct (_accounts st !! b) as [acc'|] eqn:Hb; [|assumption].
    destruct (String.eqb a b); [assumption|].
    destruct (Dlt _ _) eqn:Hlt; [assumption|].
    simpl in Hr. apply orb_false_iff in Hr as [Hout Hin].
    simpl. apply map_Forall_insert_2; [|apply map_Forall_insert_2; [|assumption]]; simpl.
    + rewrite signed_sum_app, Dadd_exact by assumption.
      rewrite (Hinv _ _ Hb). unfold signed_amount; simpl. reflexivity.
    + rewrite signed_sum_app, Dsub_exact by assumption.
      rewrite (Hinv _ _ Ha). unfold signed_amount; simpl. reflexivity.
Qed.

Lemma run_ledger_exact cs : forall st,
  forallb validated cs = true -> never_rounds cs st = true ->
  ledger_exact st -> ledger_exact (run cs st).
Proof.
  induction cs as [|c cs IH]; intros st Hv Hr Hinv; simpl in *; [assumption|].
  apply andb_true_iff in Hv as [Hc Hcs]. apply andb_true_iff in Hr as [Hrc Hrcs].
  apply negb_true_iff in Hrc.
  apply IH; [assumption..|]. apply call_ledger_exact; assumption.
Qed.

Lemma run_app cs1 cs2 st : run (cs1 ++ cs2) st = run cs2 (run cs1 st).
Proof. revert st. induction cs1 as [|c cs1 IH]; intros st; simpl; [reflexivity | apply IH]. Qed.

Lemma never_rounds_app cs1 cs2 st :
  never_rounds (cs1 ++ cs2) st = true -> never_rounds cs2 (run cs1 st) = true.
Proof.
  revert st. induction cs1 as [|c cs1 IH]; intros st H; simpl in *; [assumption|].
  apply andb_true_iff in H as [_ H]. apply IH. assumption.
Qed.

(** Deposits to and withdrawals from one account, all accepted and none
    rounded, change its balance by their net amount. *)
Lemma moves_balance cs : forall st id account,
  forallb (moves id) cs = true -> all_succeed cs st = true ->
  never_rounds cs st = true -> _accounts st !! id = Some account ->
  exists account',
    _accounts (run cs st) !! id = Some account' /\
    (Dval (Account.balance account') == Dval (Account.balance account) + net_sum cs)%Q.
Proof.
  induction cs as [|c cs IH]; intros st id acc Hm Hs Hr Hl; simpl in *.
  { exists acc. split; [assumption | ring]. }
  apply andb_true_iff in Hm as [Hc Hm]. apply andb_true_iff in Hs as [Hsc Hs].
  apply andb_true_iff in Hr as [Hrc Hr]. apply negb_true_iff in Hrc, Hsc.
  destruct c as [name d t1 t2|a|a x desc t|a x desc t|a b x desc t];
    simpl in Hc; try discriminate; apply String.eqb_eq in Hc; subst a; simpl in *.
  - unfold deposit in *. rewrite Hl in *. simpl in *.
    edestruct (fun acc1 => IH _ id acc1 Hm Hs Hr) as (acc' & Hl' & Hv');
      [apply lookup_insert_eq|].
    exists acc'. split; [assumption|]. rewrite Hv'. simpl.
    rewrite Dadd_exact by assumption. ring.
  - unfold withdraw in *. rewrite Hl in *.
    destruct (Dlt _ _) eqn:Hlt; [discriminate Hsc|]. simpl in *.
    edestruct (fun acc1 => IH _ id acc1 Hm Hs Hr) as (acc' & Hl' & Hv');
      [apply lookup_insert_eq|].
    exists acc'. split; [assumption|]. rewrite Hv'. simpl.
    rewrite Dsub_exact by assumption. ring.
Qed.

(** One call keeps the balance under [id] the signed sum of its log, when
    it does not round that balance; a [create_account] that issues [id]
    makes it so again. *)
Lemma call_exact_at id c st sofar :
  validated c = true ->
  (sofar = false -> exact_at st id) ->
  (if creates id c st then false else sofar || rounds_at id c st) = false ->
  exact_at (snd (call c st)) id.
Proof.
  unfold exact_at, creates. intros Hv Hinv Hr.
  assert (Hkeep : sofar = false ->
            forall m : gmap string Account.t, m !! id = _accounts st !! id ->
            forall account, m !! id = Some account ->
              (Dval (Account.balance account) ==
               signed_sum (Account.transactions account))%Q).
  { intros Hs m Hm account Hl. apply (Hinv Hs). rewrite <- Hm. exact Hl. }
  destruct c as [name d t1 t2|a|a x desc t|a x desc t|a b x desc t];
    cbn [is_create andb] in Hr; cbn [validated] in Hv; cbn [call].
  - unfold create_account.
    destruct (String.eqb_spec (_generate_account_id st) id) as [<-|Hne].
    + destruct (float_gt0 d) eqn:Hd; simpl; intros account;
        rewrite lookup_insert_eq; intros [= <-]; simpl.
      * unfold signed_amount; simpl. ring.
      * apply float_ge0_not_gt0; assumption.
    + apply orb_false_iff in Hr as [Hs _].
      destruct (float_gt0 d); simpl; apply (Hkeep Hs); apply lookup_insert_ne; assumption.
  - apply orb_false_iff in Hr as [Hs _]. unfold close_account.
    destruct (_accounts st !! a) as [acc|]; [|exact (Hinv Hs)].
    destruct (Dne _ _); simpl; [exact (Hinv Hs)|].
    intros account Hl. apply lookup_delete_Some in Hl as [_ Hl]. exact (Hinv Hs _ Hl).
  - apply orb_false_iff in Hr as [Hs Hr]. unfold deposit.
    destruct (_accounts st !! a) as [acc|] eqn:Ha; [|exact (Hinv Hs)]. simpl.
    destruct (String.eqb_spec a id) as [->|Hne].
    + cbn [rounds_at rounds] in Hr. rewrite String.eqb_refl, Ha in Hr. simpl in Hr.
      intros account. rewrite lookup_insert_eq. intros [= <-]. simpl.
      rewrite signed_sum_app, Dadd_exact by assumption.
      rewrite (Hinv Hs _ Ha). unfold signed_amount; simpl. reflexivity.
    + apply (Hkeep Hs). apply lookup_insert_ne. assumption.
  - apply orb_false_iff in Hr as [Hs Hr]. unfold withdraw.
    destruct (_accounts st !! a) as [acc|] eqn:Ha; [|exact (Hinv Hs)].
    destruct (Dlt _ _) eqn:Hlt; [exact (Hinv Hs)|]. simpl.
    destruct (String.eqb_spec a id) as [->|Hne].
    + cbn [rounds_at rounds] in Hr. rewrite String.eqb_refl, Ha, Hlt in Hr. simpl in Hr.
      intros account. rewrite lookup_insert_eq. intros [= <-]. simpl.
      rewrite signed_sum_app, Dsub_exact by assumption.
      rewrite (Hinv Hs _ Ha). unfold signed_amount; simpl. reflexivity.
    + apply (Hkeep Hs). apply lookup_insert_ne. assumption.
  - apply orb_false_iff in Hr as [Hs Hr]. unfold transfer.
    destruct (_accounts st !! a) as [acc|] eqn:Ha; [|exact (Hinv Hs)].
    destruct (_accounts st !! b) as [acc'|] eqn:Hb; [|exact (Hinv Hs)].
    destruct (String.eqb_spec a b) as [|Hab]; [exact (Hinv Hs)|].
    destruct (Dlt _ _) eqn:Hlt; [exact (Hinv Hs)|].
    cbn [rounds_at] in Hr. rewrite Ha, Hb, Hlt in Hr.
    destruct (String.eqb_spec a b) as [|_]; [contradiction|]. simpl in Hr.
    apply orb_false_iff in Hr as [Hout Hin]. simpl.
    destruct (String.eqb_spec b id) as [->|Hnb].
    + simpl in Hin. intros account. rewrite lookup_insert_eq. intros [= <-]. simpl.
      rewrite signed_sum_app, Dadd_exact by assumption.
      rewrite (Hinv Hs _ Hb). unfold signed_amount; simpl. reflexivity.
    + destruct (String.eqb_spec a id) as [->|Hna].
      * simpl in Hout. intros account.
        rewrite lookup_insert_ne, lookup_insert_eq by assumption. intros [= <-]. simpl.
        rewrite signed_sum_app, Dsub_exact by assumption.
        rewrite (Hinv Hs _ Ha). unfold signed_amount; simpl. reflexivity.
      * apply (Hkeep Hs). rewrite !lookup_insert_ne by assumption. reflexivity.
Qed.

Lemma run_exact_at id cs : forall st sofar,
  forallb validated cs = true ->
  (sofar = false -> exact_at st id) ->
  rounded_since_creation id cs st sofar = false ->
  exact_at (run cs st) id.
Proof.
  induction cs as [|c cs IH]; intros st sofar Hv Hinv Hr; simpl in *; [auto|].
  apply andb_true_iff in Hv as [Hc Hcs].
  apply (IH _ _ Hcs) in Hr; [exact Hr|].
  intros Hs. apply (call_exact_at id c st sofar); assumption.
Qed.

Lemma rounded_since_creation_app id cs1 cs2 : forall st sofar,
  rounded_since_creation id (cs1 ++ cs2) st sofar =
  rounded_since_creation id cs2 (run cs1 st) (rounded_since_creation id cs1 st sofar).
Proof.
  induction cs1 as [|c cs1 IH]; intros st sofar; simpl; [reflexivity | apply IH].
Qed.

(** Deposits and withdrawals on [id] create nothing: a rounding stays. *)
Lemma moves_stay_rounded id cs : forall st,
  forallb (moves id) cs = true -> rounded_since_creation id cs st true = true.
Proof.
  induction cs as [|c cs IH]; intros st Hm; simpl in *; [reflexivity|].
  apply andb_true_iff in Hm as [Hc Hm].
  replace (creates id c st) with false; [apply IH; assumption|].
  unfold creates. destruct c; simpl in *; (discriminate || reflexivity).
Qed.

Lemma moves_never_round id cs : forall st,
  forallb (moves id) cs = true ->
  rounded_since_creation id cs st false = false -> never_rounds cs st = true.
Proof.
  induction cs as [|c cs IH]; intros st Hm Hr; simpl in *; [reflexivity|].
  apply andb_true_iff in Hm as [Hc Hm].
  assert (Hcr : creates id c st = false)
    by (unfold creates; destruct c; simpl in *; (discriminate || reflexivity)).
  assert (Hat : rounds_at id c st = rounds c st).
  { destruct c as [name d t1 t2|a|a x desc t|a x desc t|a b x desc t];
      simpl in Hc; try discriminate; cbn [rounds_at]; rewrite Hc; reflexivity. }
  rewrite Hcr, Hat in Hr. simpl in Hr.
  destruct (rounds c st).
  - rewrite moves_stay_rounded in Hr by assumption. discriminate.
  - simpl. apply IH; assumption.
Qed.

(** C1 (amended): from the empty store, after any run of validated calls,
    an account's balance is exactly the signed sum of its transactions,
    provided the decimal context dropped no non-zero digit of this
    account's balance since the account was created (what happened to other
    accounts, and under this id before, does not matter); and when the run
    ends with the account's creation followed by accepted deposits and
    withdrawals on it, the balance is the initial deposit plus the deposits
    minus the withdrawals. *)
Theorem balance_is_signed_sum cs id account :
  forallb validated cs = true ->
  rounded_since_creation id cs empty_bank false = false ->
  _accounts (run cs empty_bank) !! id = Some account ->
  (Dval (Account.balance account) == signed_sum (Account.transactions account))%Q /\
  forall pre name d t1 t2 ms,
    cs = (pre ++ CreateAccount name d t1 t2 :: ms)%list ->
    id = _generate_account_id (run pre empty_bank) ->
    forallb (moves id) ms = true ->
    all_succeed ms (run (pre ++ [CreateAccount name d t1 t2]) empty_bank) = true ->
    (Dval (Account.balance account) == Dval d + net_sum ms)%Q.
Proof.
  intros Hv Hr Hl. split.
  - apply (run_exact_at id cs empty_bank false Hv); [|exact Hr | exact Hl].
    intros _ acc. unfold empty_bank; simpl. rewrite lookup_empty. discriminate.
  - intros pre name d t1 t2 ms -> -> Hm Hs.
    replace (pre ++ CreateAccount name d t1 t2 :: ms)%list
      with ((pre ++ [CreateAccount name d t1 t2]) ++ ms)%list in *
      by (rewrite <- app_assoc; reflexivity).
    rewrite rounded_since_creation_app in Hr. rewrite run_app in Hl.
    set (st1 := run (pre ++ [CreateAccount name d t1 t2]) empty_bank) in *.
    assert (Hreset : rounded_since_creation (_generate_account_id (run pre empty_bank))
                       (pre ++ [CreateAccount name d t1 t2]) empty_bank false = false).
    { rewrite rounded_since_creation_app. simpl. unfold creates. simpl.
      rewrite String.eqb_refl. reflexivity. }
    rewrite Hreset in Hr. apply moves_never_round in Hr; [|assumption].
    assert (Hnew : exists acc0, _accounts st1 !! _generate_account_id (run pre empty_bank)
                     = Some acc0 /\ Account.balance acc0 = d).
    { unfold st1. rewrite run_app. simpl. unfold create_account.
      destruct (float_gt0 d); simpl; rewrite lookup_insert_eq; eexists; split; reflexivity. }
    destruct Hnew as (acc0 & Hl0 & Hb0).
    destruct (moves_balance ms st1 _ acc0 Hm Hs Hr Hl0) as (acc' & Hl' & Hv').
    rewrite Hl in Hl'. injection Hl' as <-. rewrite Hv', Hb0. reflexivity.
Qed.

(** Jane's balance is exact although another account of the run was
    rounded. *)
Lemma balance_is_signed_sum_witness :
  let ms := [Deposit "ACC000002" d_25 "Deposit" 3;
             Withdraw "ACC000002" d_20 "Withdrawal" 4] in
  let pre := [CreateAccount "Ann" d_1e28 0 0; Deposit "ACC000001" d_1 "Deposit" 1] in
  let cs := (pre ++ CreateAccount "Jane Smith" d_50 2 2 :: ms)%list in
  exists account,
    forallb validated cs = true /\
    never_rounds cs empty_bank = false /\
    rounded_since_creation "ACC000002" cs empty_bank false = false /\
    _accounts (run cs empty_bank) !! "ACC000002" = Some account /\
    (Dval (Account.balance account) == signed_sum (Account.transactions account))%Q /\
    (Dval (Account.balance account) == Dval d_50 + net_sum ms)%Q.
Proof.
  intros ms pre cs. eexists.
  split; [reflexivity|]. split; [vm_compute; reflexivity|].
  split; [vm_compute; reflexivity|]. split; [vm_compute; reflexivity|].
  edestruct (balance_is_signed_sum cs "ACC000002") as [Hsum Hnet];
    [reflexivity | vm_compute; reflexivity | vm_compute; reflexivity |].
  split; [exact Hsum|].
  apply (Hnet pre "Jane Smith" d_50 2 2 ms); vm_compute; reflexivity.
Defined.

(** C1 as stated fails: a deposit of 1.0 into a balance of 1e+28 is recorded
    but leaves the balance where it was, the sum needing 30 digits. *)
Lemma balance_drifts_when_rounded :
  let cs := [CreateAccount "Ann" d_1e28 0 0; Deposit "ACC000001" d_1 "Deposit" 1] in
  forallb validated cs = true /\
  all_succeed cs empty_bank = true /\
  exists account,
    _accounts (run cs empty_bank) !! "ACC000001" = Some account /\
    ~ (Dval (Account.balance account) == signed_sum (Account.transactions account))%Q.
Proof.
  intros cs. split; [reflexivity|]. split; [vm_compute; reflexivity|].
  eexists. split; [vm_compute; reflexivity|].
  vm_compute. discriminate.
Qed.

(** ** Transfers *)

(** C2 (amended): a transfer that is not refused finds both accounts, which
    differ; the source's balance becomes [balance - x] and the
    destination's [balance + x] as the decimal context rounds them, which is
    a decrease and an increase by exactly [x] whenever the context drops no
    non-zero digit; the source's log gains one [transfer_out] and the
    destination's one [transfer_in], both of amount [x] and of the one
    timestamp read, each naming the other account in its description; no
    other account changes. *)
Theorem transfer_moves_amount from_id to_id x desc now st :
  is_error (fst (transfer from_id to_id x desc now st)) = false ->
  exists A B,
    let n := _transaction_counter st in
    let out_txn :=
      Transaction.mk ("TXN" +:+ format_06d (n + 1)) from_id x "transfer_out" now
        (desc +:+ " to " +:+ to_id) in
    let in_txn :=
      Transaction.mk ("TXN" +:+ format_06d (n + 1 + 1)) to_id x "transfer_in" now
        (desc +:+ " from " +:+ from_id) in
    let st' := snd (transfer from_id to_id x desc now st) in
    _accounts st !! from_id = Some A /\ _accounts st !! to_id = Some B /\
    from_id <> to_id /\
    _accounts st' !! from_id =
      Some (Account.mk (Account.id A) (Account.name A) (Dsub (Account.balance A) x)
              (Account.transactions A ++ [out_txn]) (Account.created_at A)) /\
    _accounts st' !! to_id =
      Some (Account.mk (Account.id B) (Account.name B) (Dadd (Account.balance B) x)
              (Account.transactions B ++ [in_txn]) (Account.created_at B)) /\
    (forall other, other <> from_id -> other <> to_id ->
       _accounts st' !! other = _accounts st !! other) /\
    (inexact (exact_add (Account.balance A) (copy_negate x)) = false ->
       (Dval (Dsub (Account.balance A) x) == Dval (Account.balance A) - Dval x)%Q) /\
    (inexact (exact_add (Account.balance B) x) = false ->
       (Dval (Dadd (Account.balance B) x) == Dval (Account.balance B) + Dval x)%Q).
Proof.
  unfold transfer. intros Hok.
  destruct (_accounts st !! from_id) as [A|] eqn:HA; [|discriminate Hok].
  destruct (_accounts st !! to_id) as [B|] eqn:HB; [|discriminate Hok].
  destruct (String.eqb_spec from_id to_id) as [|Hne]; [discriminate Hok|].
  destruct (Dlt (Account.balance A) x); [discriminate Hok|].
  exists A, B. simpl.
  repeat split; try assumption.
  - rewrite lookup_insert_ne by congruence. apply lookup_insert_eq.
  - apply lookup_insert_eq.
  - intros other H1 H2. rewrite !lookup_insert_ne by congruence. reflexivity.
  - apply Dsub_exact.
  - apply Dadd_exact.
Qed.

(** Closes the cases of a refused call. *)
Local Ltac refused :=
  repeat apply conj; intros; simpl; try reflexivity; try discriminate;
  try contradiction; try (exfalso; eapply is_Some_None; eassumption);
  try congruence.

(** C3: a transfer is refused, and the store (accounts, logs and counter)
    left as it was, when an account is missing, when source and destination
    are the same, and when the source holds less than the amount; the
    checks come in that order, each with its own message. *)
Theorem transfer_refused_untouched from_id to_id x desc now st :
  (_accounts st !! from_id = None \/ _accounts st !! to_id = None \/
   from_id = to_id \/
   exists A, _accounts st !! from_id = Some A /\ (Dval (Account.balance A) < Dval x)%Q) ->
  snd (transfer from_id to_id x desc now st) = st /\
  is_error (fst (transfer from_id to_id x desc now st)) = true /\
  (_accounts st !! from_id = None ->
     fst (transfer from_id to_id x desc now st) =
     "Error: Source account " +:+ from_id +:+ " not found.") /\
  (is_Some (_accounts st !! from_id) -> _accounts st !! to_id = None ->
     fst (transfer from_id to_id x desc now st) =
     "Error: Destination account " +:+ to_id +:+ " not found.") /\
  (is_Some (_accounts st !! from_id) -> from_id = to_id ->
     fst (transfer from_id to_id x desc now st) =
     "Error: Cannot transfer to the same account.") /\
  (forall A, _accounts st !! from_id = Some A -> is_Some (_accounts st !! to_id) ->
     from_id <> to_id -> (Dval (Account.balance A) < Dval x)%Q ->
     fst (transfer from_id to_id x desc now st) =
     "Error: Insufficient funds. Available balance: $" +:+ format_2f (Account.balance A)).
Proof.
  intros H. unfold transfer.
  destruct (_accounts st !! from_id) as [A|] eqn:HA; [|refused].
  destruct (_accounts st !! to_id) as [B|] eqn:HB; [|refused].
  destruct (String.eqb_spec from_id to_id) as [Heq|Hne]; [refused|].
  destruct (Dlt (Account.balance A) x) eqn:Hlt; [refused|].
  exfalso. destruct H as [H|[H|[H|(A' & [= <-] & H)]]]; try discriminate; try contradiction.
  apply Dlt_spec in H. congruence.
Qed.

(** ** Withdrawals *)

(** C5 (amended): on an account of the store, with a finite balance and a
    finite amount (the values of [Decimal]), a withdrawal of more than the
    balance is refused with the available balance in the message and the
    store left as it was; any other withdrawal is accepted, appends one
    [withdrawal] transaction of that amount and sets the balance to
    [balance - amount] as the decimal context rounds it, a decrease by
    exactly the amount whenever the context drops no non-zero digit. *)
Theorem withdraw_checks_funds id x desc now st account :
  _accounts st !! id = Some account ->
  ((Dval (Account.balance account) < Dval x)%Q ->
     withdraw id x desc now st =
     ("Error: Insufficient funds. Available balance: $" +:+
      format_2f (Account.balance account), st)) /\
  (~ (Dval (Account.balance account) < Dval x)%Q ->
     let txn :=
       Transaction.mk ("TXN" +:+ format_06d (_transaction_counter st + 1)) id x
         "withdrawal" now desc in
     let account' :=
       Account.mk (Account.id account) (Account.name account)
         (Dsub (Account.balance account) x)
         (Account.transactions account ++ [txn]) (Account.created_at account) in
     withdraw id x desc now st =
     ("Withdrew $" +:+ format_2f x +:+ " from " +:+ id +:+ ". New balance: $" +:+
      format_2f (Dsub (Account.balance account) x),
      mkBank (<[id := account']> (_accounts st)) (_transaction_counter st + 1)) /\
     is_error (fst (withdraw id x desc now st)) = false /\
     (inexact (exact_add (Account.balance account) (copy_negate x)) = false ->
        (Dval (Dsub (Account.balance account) x) ==
         Dval (Account.balance account) - Dval x)%Q)).
Proof.
  intros Hl. unfold withdraw. rewrite Hl.
  destruct (Dlt (Account.balance account) x) eqn:Hlt; split; intros Hc.
  - reflexivity.
  - apply Dlt_spec in Hlt. contradiction.
  - apply Dlt_spec in Hc. congruence.
  - simpl. repeat split. apply Dsub_exact.
Qed.

(** Why finite: at the infinity the validation lets through, the funds
    test of a withdrawal passes ("Infinity < Infinity" is false) and the
    subtraction that follows raises, where on finite values it always
    returns; a finite amount leaves an infinite balance infinite. *)
Lemma infinite_balance_passes_test_then_raises :
  Py_lt (Inf false) (Inf false) = false /\
  Py_sub (Inf false) (Inf false) = None /\
  (forall a, Py_lt (Inf false) (Fin a) = false /\
             Py_sub (Inf false) (Fin a) = Some (Inf false)) /\
  (forall a b, Py_lt (Fin a) (Fin b) = Dlt a b /\
               Py_sub (Fin a) (Fin b) = Some (Fin (Dsub a b))).
Proof.
  split; [reflexivity|]. split; [reflexivity|].
  split; intros; split; reflexivity.
Qed.

(** ** Closing an account *)

(** C6: closing an account of the store succeeds exactly when its balance
    is zero; it is then removed, and [get_account_info] no longer finds it;
    otherwise the call is refused with the balance in the message and the
    store is left as it was. *)
Theorem close_account_iff_zero isoformat id st account :
  _accounts st !! id = Some account ->
  (fst (close_account id st) = "Account " +:+ id +:+ " has been closed successfully."
   <-> (Dval (Account.balance account) == 0)%Q) /\
  ((Dval (Account.balance account) == 0)%Q ->
     snd (close_account id st) = with_accounts st (delete id (_accounts st)) /\
     _accounts (snd (close_account id st)) !! id = None /\
     get_account_info isoformat id (snd (close_account id st)) =
       "Error: Account " +:+ id +:+ " not found.") /\
  (~ (Dval (Account.balance account) == 0)%Q ->
     close_account id st =
       ("Error: Cannot close account with balance $" +:+
        format_2f (Account.balance account) +:+
        ". Please withdraw all funds first.", st)).
Proof.
  intros Hl. unfold close_account. rewrite Hl.
  destruct (Dne (Account.balance account) Decimal_0_00) eqn:Hne.
  - assert (Hnz : ~ (Dval (Account.balance account) == 0)%Q).
    { intros H0. rewrite <- Dval_0_00 in H0. apply Dne_spec in H0. congruence. }
    split; [split; [simpl; discriminate | contradiction]|].
    split; [contradiction | reflexivity].
  - apply Dne_spec in Hne. rewrite Dval_0_00 in Hne.
    split; [split; [intros _; assumption | reflexivity]|].
    split; [intros _ | contradiction].
    split; [reflexivity|]. simpl. split; [apply lookup_delete_eq|].
    unfold get_account_info. simpl. rewrite lookup_delete_eq. reflexivity.
Qed.

(** ** Transaction history *)

Lemma slice_newest_first {A} (limit : Z) (l : list A) :
  1 <= limit -> rev (slice_from_neg limit l) = most_recent (Z.to_nat limit) l.
Proof.
  intros Hlim. unfold slice_from_neg, most_recent.
  destruct (Z.ltb_spec 0 limit); [|lia].
  rewrite firstn_rev. do 2 f_equal. lia.
Qed.

Lemma sign_of_cases txn :
  (Transaction.transaction_type txn = "deposit" \/
   Transaction.transaction_type txn = "transfer_in" -> sign_of txn = "+") /\
  (Transaction.transaction_type txn = "withdrawal" \/
   Transaction.transaction_type txn = "transfer_out" -> sign_of txn = "-").
Proof.
  unfold sign_of, is_credit. split; intros [-> | ->]; reflexivity.
Qed.

(** C8 (amended): for an account of the store and a limit between 1 and
    100, the history of an account without transaction is the one sentence
    that says so, with no balance; otherwise it is a title, a rule, one line
    for each of the [limit] newest transactions (all of them when there are
    fewer), newest first, a rule, and last the line with the current
    balance; a line shows "+" before the amount of a deposit or incoming
    transfer and "-" before that of a withdrawal or outgoing transfer. *)
Theorem history_newest_first strftime_minute id limit st account :
  _accounts st !! id = Some account ->
  1 <= limit <= 100 ->
  get_transaction_history strftime_minute id limit st =
    match Account.transactions account with
    | [] => "No transactions found for account " +:+ id +:+ "."
    | _ =>
      join nl
        (["Transaction History for " +:+ id +:+ ":"; repeat_string "-" 50] ++
         map (history_line strftime_minute)
           (most_recent (Z.to_nat limit) (Account.transactions account)) ++
         [repeat_string "-" 50;
          "Current Balance: $" +:+ format_2f (Account.balance account)])%list
    end /\
  forall txn,
    history_line strftime_minute txn =
      "  " +:+ strftime_minute (Transaction.timestamp txn) +:+ " | " +:+
      sign_of txn +:+ "$" +:+ format_2f (Transaction.amount txn) +:+ " | " +:+
      Transaction.description txn /\
    (Transaction.transaction_type txn = "deposit" \/
     Transaction.transaction_type txn = "transfer_in" -> sign_of txn = "+") /\
    (Transaction.transaction_type txn = "withdrawal" \/
     Transaction.transaction_type txn = "transfer_out" -> sign_of txn = "-").
Proof.
  intros Hl Hlim. split; [|intros txn; split; [reflexivity | apply sign_of_cases]].
  unfold get_transaction_history. rewrite Hl.
  destruct (Account.transactions account) as [|t1 l1] eqn:Hlog.
  { unfold slice_from_neg. rewrite drop_nil. reflexivity. }
  rewrite <- Hlog. rewrite <- slice_newest_first by lia.
  destruct (slice_from_neg limit (Account.transactions account)) as [|t l] eqn:Hs.
  - exfalso. apply (f_equal (@rev _)) in Hs. rewrite slice_newest_first in Hs by lia.
    unfold most_recent in Hs. rewrite Hlog in Hs.
    destruct (rev (t1 :: l1)) as [|r0 rs] eqn:Hrev.
    + apply (f_equal (@length _)) in Hrev. rewrite length_rev in Hrev. discriminate.
    + destruct (Z.to_nat limit) eqn:Hn; [lia | discriminate].
  - rewrite <- !app_assoc. reflexivity.
Qed.

(** ** Creating an account *)

(** What [create_account] does on any store: with an initial deposit that
    is not negative it takes the id "ACC" and the store's size plus one on
    six digits, stores under it an account of that name and of balance the
    initial deposit, whose log is one [deposit] transaction "Initial
    deposit" of that amount when the deposit is positive and is empty when
    it is zero; in the empty store the id is ACC000001, and John Doe's
    account with 100.00 is reported with balance $100.00 and has one
    transaction. *)
Theorem create_account_registers name d t1 t2 st :
  float_ge0 d = true ->
  let id := "ACC" +:+ format_06d (N.of_nat (size (_accounts st)) + 1) in
  let txn :=
    Transaction.mk ("TXN" +:+ format_06d (_transaction_counter st + 1)) id d
      "deposit" t2 "Initial deposit" in
  (float_gt0 d = true <-> (0 < Dval d)%Q) /\
  (float_gt0 d = false <-> (Dval d == 0)%Q) /\
  create_account name d t1 t2 st =
    ("Account created successfully. Account ID: " +:+ id +:+ ", Balance: $" +:+
     format_2f d,
     if float_gt0 d
     then mkBank (<[id := Account.mk id name d [txn] t1]> (_accounts st))
            (_transaction_counter st + 1)
     else mkBank (<[id := Account.mk id name d [] t1]> (_accounts st))
            (_transaction_counter st)) /\
  (_accounts st = ∅ -> id = "ACC000001") /\
  (exists account,
     create_account "John Doe" d_100 t1 t2 empty_bank =
       ("Account created successfully. Account ID: ACC000001, Balance: $100.00",
        mkBank {[ "ACC000001" := account ]} 1) /\
     Account.balance account = d_100 /\
     length (Account.transactions account) = 1%nat).
Proof.
  intros Hge id txn.
  assert (Hpos : float_gt0 d = true <-> (0 < Dval d)%Q).
  { split; [apply float_gt0_val|]. intros Hp.
    destruct (float_gt0 d) eqn:Hgt; [reflexivity|].
    rewrite (float_ge0_not_gt0 d Hge Hgt) in Hp. discriminate Hp. }
  split; [exact Hpos|]. split.
  { split; [apply float_ge0_not_gt0; assumption|]. intros Hz.
    destruct (float_gt0 d) eqn:Hgt; [|reflexivity].
    apply float_gt0_val in Hgt. rewrite Hz in Hgt. discriminate Hgt. }
  split.
  { unfold create_account, _generate_account_id. fold id.
    destruct (float_gt0 d); reflexivity. }
  split.
  { intros He. unfold id. rewrite He. reflexivity. }
  eexists. split; [|split]; vm_compute; reflexivity.
Qed.

(** C9 fails for the id: with ACC000001 and ACC000002 issued and the first
    closed, the next in sequence is ACC000003, and [create_account] takes
    ACC000002 again, the id of Bob's open account; the rest is as claimed
    (balance $100.00 reported, one "Initial deposit" transaction). *)
Theorem create_account_id_not_next_in_sequence :
  let st1 := snd (create_account "Alice" d_0 0 0 empty_bank) in
  let st2 := snd (create_account "Bob" d_50 1 1 st1) in
  let st3 := snd (close_account "ACC000001" st2) in
  let created := create_account "Carol" d_100 2 2 st3 in
  fst (create_account "Alice" d_0 0 0 empty_bank) =
    "Account created successfully. Account ID: ACC000001, Balance: $0.00" /\
  fst (create_account "Bob" d_50 1 1 st1) =
    "Account created successfully. Account ID: ACC000002, Balance: $50.00" /\
  fst (close_account "ACC000001" st2) =
    "Account ACC000001 has been closed successfully." /\
  Account.name <$> _accounts st3 !! "ACC000002" = Some "Bob" /\
  fst created =
    "Account created successfully. Account ID: ACC000002, Balance: $100.00" /\
  fst created <>
    "Account created successfully. Account ID: ACC000003, Balance: $100.00" /\
  _accounts (snd created) !! "ACC000003" = None /\
  (Account.name <$> _accounts (snd created) !! "ACC000002" = Some "Carol" /\
   Account.balance <$> _accounts (snd created) !! "ACC000002" = Some d_100 /\
   (length ∘ Account.transactions) <$> _accounts (snd created) !! "ACC000002" =
     Some 1%nat).
Proof.
  vm_compute. repeat split. discriminate.
Qed.

(** ** The balance resource *)

(** C10 (amended): for an id that is not in the store the balance resource
    answers "0.00", no error; for an id in the store it answers [str] of the
    balance; for an account of the store whose balance is zero that is
    "0.00", the answer for an unknown id, exactly when the zero is positive
    with exponent -2. *)
Theorem balance_resource_answers id st :
  (_accounts st !! id = None -> get_balance_resource id st = "0.00") /\
  (forall account, _accounts st !! id = Some account ->
     get_balance_resource id st = Decimal_str (Account.balance account)) /\
  (forall account, _accounts st !! id = Some account ->
     (Dval (Account.balance account) == 0)%Q ->
     (get_balance_resource id st = "0.00" <->
      d_sign (Account.balance account) = false /\
      d_exp (Account.balance account) = -2)).
Proof.
  unfold get_balance_resource. split; [intros ->; reflexivity|].
  split; [intros account ->; reflexivity|].
  intros account -> Hz. apply Dval_zero_int in Hz.
  destruct (Account.balance account) as [s c e]. simpl in *. subst c.
  apply Decimal_str_zero.
Qed.

(** An account emptied of 10.25 answers like an unknown one. *)
Lemma emptied_account_answers_like_unknown :
  let cs := [CreateAccount "Ann" d_10_25 0 0;
             Withdraw "ACC000001" d_10_25 "Withdrawal" 1] in
  exists account,
    _accounts (run cs empty_bank) !! "ACC000001" = Some account /\
    (Dval (Account.balance account) == 0)%Q /\
    get_balance_resource "ACC000001" (run cs empty_bank) = "0.00" /\
    get_balance_resource "ACC000002" (run cs empty_bank) = "0.00".
Proof.
  eexists. split; [vm_compute; reflexivity|].
  split; [vm_compute; reflexivity|]. split; vm_compute; reflexivity.
Qed.

(** C10 as stated fails: an account just opened without a deposit has a
    zero balance and answers "0.0", an unknown id answers "0.00". *)
Lemma fresh_account_told_from_unknown :
  let st := run [CreateAccount "Ann" d_0 0 0] empty_bank in
  exists account,
    _accounts st !! "ACC000001" = Some account /\
    (Dval (Account.balance account) == 0)%Q /\
    _accounts st !! "ACC000002" = None /\
    get_balance_resource "ACC000001" st = "0.0" /\
    get_balance_resource "ACC000002" st = "0.00" /\
    get_balance_resource "ACC000001" st <> get_balance_resource "ACC000002" st.
Proof.
  eexists. split; [vm_compute; reflexivity|]. split; [vm_compute; reflexivity|].
  split; [vm_compute; reflexivity|]. split; [vm_compute; reflexivity|].
  split; [vm_compute; reflexivity|]. vm_compute. discriminate.
Qed.

(** ** Identifiers *)

Lemma call_counter_grows c st :
  (_transaction_counter st <= _transaction_counter (snd (call c st)))%N.
Proof.
  assert (H1 : forall n, (n <= n + 1)%N) by (intros; lia).
  assert (H2 : forall n, (n <= n + 1 + 1)%N) by (intros; lia).
  destruct c as [name d t1 t2|a|a x desc t|a x desc t|a b x desc t]; simpl.
  - unfold create_account. destruct (float_gt0 d); simpl; auto using N.le_refl.
  - unfold close_account. destruct (_accounts st !! a); [|apply N.le_refl].
    destruct (Dne _ _); simpl; apply N.le_refl.
  - unfold deposit. destruct (_accounts st !! a); simpl; auto using N.le_refl.
  - unfold withdraw. destruct (_accounts st !! a); [|apply N.le_refl].
    destruct (Dlt _ _); simpl; auto using N.le_refl.
  - unfold transfer. destruct (_accounts st !! a); [|apply N.le_refl].
    destruct (_accounts st !! b); [|apply N.le_refl].
    destruct (String.eqb a b); [apply N.le_refl|].
    destruct (Dlt _ _); simpl; auto using N.le_refl.
Qed.

(** C4 fails for account ids: with Alice (ACC000001) closed and Bob
    (ACC000002) still open, the store has one account and the next id is
    ACC000002 again; the new account takes Bob's place in the store. *)
Theorem account_id_issued_twice :
  let cs := [CreateAccount "Alice" d_0 0 0; CreateAccount "Bob" d_50 1 1;
             CloseAccount "ACC000001"] in
  let st := run cs empty_bank in
  let created := create_account "Carol" d_0 2 2 st in
  Account.name <$> _accounts st !! "ACC000002" = Some "Bob" /\
  _generate_account_id st = "ACC000002" /\
  fst created =
    "Account created successfully. Account ID: ACC000002, Balance: $0.00" /\
  Account.name <$> _accounts (snd created) !! "ACC000002" = Some "Carol" /\
  size (_accounts (snd created)) = 1%nat.
Proof. vm_compute. repeat split. Qed.

(** * The theorems at the scenarios of the tests *)

Lemma balance_never_negative_witness :
  let cs := [CreateAccount "Jane Smith" d_50 0 0;
             Deposit "ACC000001" d_25 "Deposit" 1;
             Withdraw "ACC000001" d_20 "Withdrawal" 2;
             Withdraw "ACC000001" d_100 "Withdrawal" 3] in
  exists account,
    forallb validated cs = true /\
    _accounts (run cs empty_bank) !! "ACC000001" = Some account /\
    (0 <= Dval (Account.balance account))%Q.
Proof.
  intros cs. eexists. split; [reflexivity|]. split; [vm_compute; reflexivity|].
  apply (balance_never_negative cs "ACC000001"); vm_compute; reflexivity.
Defined.

Lemma transfer_moves_amount_witness :
  is_error (fst (transfer "ACC000001" "ACC000002" (mkDecimal false 300 (-1))
                   "Transfer" 2 alice_bob)) = false /\
  exists A B,
    let n := _transaction_counter alice_bob in
    let x := mkDecimal false 300 (-1) in
    let out_txn :=
      Transaction.mk ("TXN" +:+ format_06d (n + 1)) "ACC000001" x "transfer_out" 2
        ("Transfer" +:+ " to " +:+ "ACC000002") in
    let in_txn :=
      Transaction.mk ("TXN" +:+ format_06d (n + 1 + 1)) "ACC000002" x "transfer_in" 2
        ("Transfer" +:+ " from " +:+ "ACC000001") in
    let st' := snd (transfer "ACC000001" "ACC000002" x "Transfer" 2 alice_bob) in
    _accounts alice_bob !! "ACC000001" = Some A /\
    _accounts alice_bob !! "ACC000002" = Some B /\
    "ACC000001" <> "ACC000002" /\
    _accounts st' !! "ACC000001" =
      Some (Account.mk (Account.id A) (Account.name A) (Dsub (Account.balance A) x)
              (Account.transactions A ++ [out_txn]) (Account.created_at A)) /\
    _accounts st' !! "ACC000002" =
      Some (Account.mk (Account.id B) (Account.name B) (Dadd (Account.balance B) x)
              (Account.transactions B ++ [in_txn]) (Account.created_at B)) /\
    (forall other, other <> "ACC000001" -> other <> "ACC000002" ->
       _accounts st' !! other = _accounts alice_bob !! other) /\
    (inexact (exact_add (Account.balance A) (copy_negate x)) = false ->
       (Dval (Dsub (Account.balance A) x) == Dval (Account.balance A) - Dval x)%Q) /\
    (inexact (exact_add (Account.balance B) x) = false ->
       (Dval (Dadd (Account.balance B) x) == Dval (Account.balance B) + Dval x)%Q).
Proof.
  split; [vm_compute; reflexivity|].
  apply (transfer_moves_amount "ACC000001" "ACC000002" (mkDecimal false 300 (-1))
           "Transfer" 2 alice_bob).
  vm_compute; reflexivity.
Defined.

(** C2 as stated fails: 1.0 transferred to a balance of 1e+28 leaves that
    balance where it was. *)
Lemma transfer_increase_lost_when_rounded :
  let st := run [CreateAccount "Alice" d_50 0 0; CreateAccount "Bob" d_1e28 1 1]
              empty_bank in
  let result := transfer "ACC000001" "ACC000002" d_1 "Transfer" 2 st in
  float_gt0 d_1 = true /\
  is_error (fst result) = false /\
  exists B B',
    _accounts st !! "ACC000002" = Some B /\
    _accounts (snd result) !! "ACC000002" = Some B' /\
    (Dval (Account.balance B') == Dval (Account.balance B))%Q /\
    ~ (Dval (Account.balance B') == Dval (Account.balance B) + Dval d_1)%Q.
Proof.
  intros st result. split; [reflexivity|]. split; [vm_compute; reflexivity|].
  eexists. eexists. split; [vm_compute; reflexivity|].
  split; [vm_compute; reflexivity|].
  split; vm_compute; [reflexivity | discriminate].
Qed.

Lemma transfer_refused_untouched_witness :
  let x := mkDecimal false 5000 (-1) in
  let result := transfer "ACC000001" "ACC000002" x "Transfer" 2 alice_bob in
  (_accounts alice_bob !! "ACC000001" = None \/
   _accounts alice_bob !! "ACC000002" = None \/
   "ACC000001" = "ACC000002" \/
   exists A, _accounts alice_bob !! "ACC000001" = Some A /\
             (Dval (Account.balance A) < Dval x)%Q) /\
  snd result = alice_bob /\
  is_error (fst result) = true /\
  (_accounts alice_bob !! "ACC000001" = None ->
     fst result = "Error: Source account " +:+ "ACC000001" +:+ " not found.") /\
  (is_Some (_accounts alice_bob !! "ACC000001") ->
   _accounts alice_bob !! "ACC000002" = None ->
     fst result = "Error: Destination account " +:+ "ACC000002" +:+ " not found.") /\
  (is_Some (_accounts alice_bob !! "ACC000001") -> "ACC000001" = "ACC000002" ->
     fst result = "Error: Cannot transfer to the same account.") /\
  (forall A, _accounts alice_bob !! "ACC000001" = Some A ->
     is_Some (_accounts alice_bob !! "ACC000002") ->
     "ACC000001" <> "ACC000002" -> (Dval (Account.balance A) < Dval x)%Q ->
     fst result =
     "Error: Insufficient funds. Available balance: $" +:+ format_2f (Account.balance A)).
Proof.
  intros x result.
  assert (H : _accounts alice_bob !! "ACC000001" = None \/
              _accounts alice_bob !! "ACC000002" = None \/
              "ACC000001" = "ACC000002" \/
              exists A, _accounts alice_bob !! "ACC000001" = Some A /\
                        (Dval (Account.balance A) < Dval x)%Q).
  { right. right. right. eexists. split; vm_compute; reflexivity. }
  split; [exact H|].
  exact (transfer_refused_untouched "ACC000001" "ACC000002" x "Transfer" 2 alice_bob H).
Defined.

Lemma withdraw_checks_funds_witness :
  let x := d_50 in
  exists account,
    _accounts test_user !! "ACC000001" = Some account /\
    (((Dval (Account.balance account) < Dval x)%Q ->
       withdraw "ACC000001" x "Withdrawal" 1 test_user =
       ("Error: Insufficient funds. Available balance: $" +:+
        format_2f (Account.balance account), test_user)) /\
     (~ (Dval (Account.balance account) < Dval x)%Q ->
       let txn :=
         Transaction.mk ("TXN" +:+ format_06d (_transaction_counter test_user + 1))
           "ACC000001" x "withdrawal" 1 "Withdrawal" in
       let account' :=
         Account.mk (Account.id account) (Account.name account)
           (Dsub (Account.balance account) x)
           (Account.transactions account ++ [txn]) (Account.created_at account) in
       withdraw "ACC000001" x "Withdrawal" 1 test_user =
       ("Withdrew $" +:+ format_2f x +:+ " from " +:+ "ACC000001" +:+
        ". New balance: $" +:+ format_2f (Dsub (Account.balance account) x),
        mkBank (<["ACC000001" := account']> (_accounts test_user))
          (_transaction_counter test_user + 1)) /\
       is_error (fst (withdraw "ACC000001" x "Withdrawal" 1 test_user)) = false /\
       (inexact (exact_add (Account.balance account) (copy_negate x)) = false ->
          (Dval (Dsub (Account.balance account) x) ==
           Dval (Account.balance account) - Dval x)%Q))).
Proof.
  intros x. eexists. split; [vm_compute; reflexivity|].
  apply (withdraw_checks_funds "ACC000001" x "Withdrawal" 1 test_user).
  vm_compute; reflexivity.
Defined.

(** C5 as stated fails: 1.0 withdrawn from a balance of 1e+29 is accepted
    and recorded, and the balance stays where it was. *)
Lemma withdraw_decrease_lost_when_rounded :
  let st := run [CreateAccount "Ann" d_1e29 0 0] empty_bank in
  let result := withdraw "ACC000001" d_1 "Withdrawal" 1 st in
  float_gt0 d_1 = true /\
  is_error (fst result) = false /\
  exists account account',
    _accounts st !! "ACC000001" = Some account /\
    _accounts (snd result) !! "ACC000001" = Some account' /\
    ~ (Dval (Account.balance account) < Dval d_1)%Q /\
    length (Account.transactions account') = S (length (Account.transactions account)) /\
    (Dval (Account.balance account') == Dval (Account.balance account))%Q /\
    ~ (Dval (Account.balance account') == Dval (Account.balance account) - Dval d_1)%Q.
Proof.
  intros st result. split; [reflexivity|]. split; [vm_compute; reflexivity|].
  eexists. eexists. split; [vm_compute; reflexivity|].
  split; [vm_compute; reflexivity|].
  split; [vm_compute; discriminate|].
  split; [vm_compute; reflexivity|].
  split; vm_compute; [reflexivity | discriminate].
Qed.

Lemma close_account_iff_zero_witness :
  let isoformat := fun _ : datetime => "" in
  let st := run [CreateAccount "Ann" d_0 0 0] empty_bank in
  exists account,
    _accounts st !! "ACC000001" = Some account /\
    ((fst (close_account "ACC000001" st) =
        "Account " +:+ "ACC000001" +:+ " has been closed successfully."
      <-> (Dval (Account.balance account) == 0)%Q) /\
     ((Dval (Account.balance account) == 0)%Q ->
        snd (close_account "ACC000001" st) =
          with_accounts st (delete "ACC000001" (_accounts st)) /\
        _accounts (snd (close_account "ACC000001" st)) !! "ACC000001" = None /\
        get_account_info isoformat "ACC000001" (snd (close_account "ACC000001" st)) =
          "Error: Account " +:+ "ACC000001" +:+ " not found.") /\
     (~ (Dval (Account.balance account) == 0)%Q ->
        close_account "ACC000001" st =
          ("Error: Cannot close account with balance $" +:+
           format_2f (Account.balance account) +:+
           ". Please withdraw all funds first.", st))).
Proof.
  intros isoformat st. eexists. split; [vm_compute; reflexivity|].
  apply (close_account_iff_zero isoformat "ACC000001" st).
  vm_compute; reflexivity.
Defined.

Lemma history_newest_first_witness :
  let strftime_minute := fun _ : datetime => "2026-01-01 00:00" in
  let st := run [CreateAccount "Jane Smith" d_50 0 0;
                 Deposit "ACC000001" d_25 "Deposit" 1;
                 Withdraw "ACC000001" d_20 "Withdrawal" 2] empty_bank in
  exists account,
    _accounts st !! "ACC000001" = Some account /\
    1 <= 10 <= 100 /\
    (get_transaction_history strftime_minute "ACC000001" 10 st =
       match Account.transactions account with
       | [] => "No transactions found for account " +:+ "ACC000001" +:+ "."
       | _ =>
         join nl
           (["Transaction History for " +:+ "ACC000001" +:+ ":";
             repeat_string "-" 50] ++
            map (history_line strftime_minute)
              (most_recent (Z.to_nat 10) (Account.transactions account)) ++
            [repeat_string "-" 50;
             "Current Balance: $" +:+ format_2f (Account.balance account)])%list
       end /\
     forall txn,
       history_line strftime_minute txn =
         "  " +:+ strftime_minute (Transaction.timestamp txn) +:+ " | " +:+
         sign_of txn +:+ "$" +:+ format_2f (Transaction.amount txn) +:+ " | " +:+
         Transaction.description txn /\
       (Transaction.transaction_type txn = "deposit" \/
        Transaction.transaction_type txn = "transfer_in" -> sign_of txn = "+") /\
       (Transaction.transaction_type txn = "withdrawal" \/
        Transaction.transaction_type txn = "transfer_out" -> sign_of txn = "-")).
Proof.
  intros strftime_minute st. eexists.
  split; [vm_compute; reflexivity|]. split; [lia|].
  apply (history_newest_first strftime_minute "ACC000001" 10 st);
    [vm_compute; reflexivity | lia].
Defined.

(** C8 as stated fails: an account opened without a deposit has no
    transaction, and its history is one sentence without the balance. *)
Lemma history_of_empty_log_has_no_balance_line :
  let strftime_minute := fun _ : datetime => "2026-01-01 00:00" in
  let st := run [CreateAccount "Ann" d_0 0 0] empty_bank in
  exists account,
    _accounts st !! "ACC000001" = Some account /\
    get_transaction_history strftime_minute "ACC000001" 10 st =
      "No transactions found for account ACC000001." /\
    ends_with ("Current Balance: $" +:+ format_2f (Account.balance account))
      (get_transaction_history strftime_minute "ACC000001" 10 st) = false.
Proof.
  intros strftime_minute st. eexists. split; [vm_compute; reflexivity|].
  split; vm_compute; reflexivity.
Qed.

Lemma create_account_registers_witness :
  float_ge0 d_100 = true /\
  let id := "ACC" +:+ format_06d (N.of_nat (size (_accounts empty_bank)) + 1) in
  let txn :=
    Transaction.mk ("TXN" +:+ format_06d (_transaction_counter empty_bank + 1)) id
      d_100 "deposit" 0 "Initial deposit" in
  (float_gt0 d_100 = true <-> (0 < Dval d_100)%Q) /\
  (float_gt0 d_100 = false <-> (Dval d_100 == 0)%Q) /\
  create_account "John Doe" d_100 0 0 empty_bank =
    ("Account created successfully. Account ID: " +:+ id +:+ ", Balance: $" +:+
     format_2f d_100,
     if float_gt0 d_100
     then mkBank (<[id := Account.mk id "John Doe" d_100 [txn] 0]> (_accounts empty_bank))
            (_transaction_counter empty_bank + 1)
     else mkBank (<[id := Account.mk id "John Doe" d_100 [] 0]> (_accounts empty_bank))
            (_transaction_counter empty_bank)) /\
  (_accounts empty_bank = ∅ -> id = "ACC000001") /\
  (exists account,
     create_account "John Doe" d_100 0 0 empty_bank =
       ("Account created successfully. Account ID: ACC000001, Balance: $100.00",
        mkBank {[ "ACC000001" := account ]} 1) /\
     Account.balance account = d_100 /\
     length (Account.transactions account) = 1%nat).
Proof.
  split; [reflexivity|].
  apply (create_account_registers "John Doe" d_100 0 0 empty_bank). reflexivity.
Defined.

(** * Further properties of the ledger *)

(** ** Identifiers *)

(** The decimal digits of a positive number start with a digit other
    than 0. *)
Lemma pretty_N_go_head (x : N) : forall s,
  (0 < x)%N -> exists c rest, pretty_N_go x s = String c rest /\ c <> "0"%char.
Proof.
  induction (N.lt_wf_0 x) as [x _ IH]; intros s Hx.
  rewrite pretty_N_go_step by assumption.
  destruct (N.eq_dec (x `div` 10)%N 0%N) as [H0|Hn0].
  - rewrite H0, pretty_N_go_0. eexists. eexists. split; [reflexivity|].
    assert (Hlt : (x < 10)%N) by (apply N.div_small_iff in H0; lia).
    rewrite N.mod_small by assumption.
    assert (x = 1 \/ x = 2 \/ x = 3 \/ x = 4 \/ x = 5 \/ x = 6 \/ x = 7 \/ x = 8 \/ x = 9)%N
      as Hc by lia.
    destruct Hc as [->|[->|[->|[->|[->|[->|[->|[->| ->]]]]]]]]; discriminate.
  - apply IH; [apply N.div_lt; [assumption | reflexivity] | apply N.neq_0_lt_0; assumption].
Qed.

Lemma pretty_N_head (n : N) :
  pretty n = "0" \/ exists c rest, pretty n = String c rest /\ c <> "0"%char.
Proof.
  unfold pretty, pretty_N. destruct (decide (n = 0%N)); [left; reflexivity|].
  right. apply pretty_N_go_head. lia.
Qed.

Lemma repeat_string_0_all a b c rest :
  c <> "0"%char -> repeat_string "0" a <> repeat_string "0" b +:+ String c rest.
Proof.
  intros Hc. revert a. induction b as [|b IH]; intros a; destruct a as [|a]; simpl.
  - discriminate.
  - intros [= H _]. congruence.
  - discriminate.
  - intros [= H]. apply (IH a). exact H.
Qed.

(** Leading zeros before digits that do not start with 0 can be told from
    the digits. *)
Lemma zero_padding_inj a b c1 r1 c2 r2 :
  c1 <> "0"%char -> c2 <> "0"%char ->
  repeat_string "0" a +:+ String c1 r1 = repeat_string "0" b +:+ String c2 r2 ->
  String c1 r1 = String c2 r2.
Proof.
  intros H1 H2. revert b. induction a as [|a IH]; intros b; destruct b as [|b]; simpl.
  - trivial.
  - intros [= H _]. congruence.
  - intros [= H _]. congruence.
  - intros [= H]. apply (IH b). exact H.
Qed.

Lemma format_06d_inj n m : format_06d n = format_06d m -> n = m.
Proof.
  unfold format_06d. intros H. apply (inj pretty).
  destruct (pretty_N_head n) as [Hn|(c1 & r1 & Hn & Hc1)];
    destruct (pretty_N_head m) as [Hm|(c2 & r2 & Hm & Hc2)];
    rewrite Hn, Hm in *.
  - reflexivity.
  - exfalso. change (repeat_string "0" (6 - String.length "0") +:+ "0")
      with (repeat_string "0" 6) in H.
    exact (repeat_string_0_all _ _ _ _ Hc2 H).
  - exfalso. change (repeat_string "0" (6 - String.length "0") +:+ "0")
      with (repeat_string "0" 6) in H. symmetry in H.
    exact (repeat_string_0_all _ _ _ _ Hc1 H).
  - exact (zero_padding_inj _ _ _ _ _ _ Hc1 Hc2 H).
Qed.

Lemma app_inj_l (p s1 s2 : string) : p +:+ s1 = p +:+ s2 -> s1 = s2.
Proof. induction p as [|c p IH]; simpl; [trivial | intros [= H]; auto]. Qed.

(** X1: two stores are issued the same transaction id only when their
    counters agree, and the same account id only when they hold as many
    accounts: the six-digit format pads, it never cuts. *)
Theorem generated_ids_agree st1 st2 :
  (fst (_generate_transaction_id st1) = fst (_generate_transaction_id st2) <->
   _transaction_counter st1 = _transaction_counter st2) /\
  (_generate_account_id st1 = _generate_account_id st2 <->
   size (_accounts st1) = size (_accounts st2)).
Proof.
  unfold _generate_transaction_id, _generate_account_id. simpl.
  split; (split; [intros Heq | intros ->; reflexivity]).
  - apply (app_inj_l "TXN"), format_06d_inj in Heq. lia.
  - apply (app_inj_l "ACC"), format_06d_inj in Heq. lia.
Qed.

(** ** Refusals *)

(** X2: a call that answers with an error leaves the store as it was,
    accounts, logs and counter; this holds for every tool that writes. *)
Theorem refused_call_changes_nothing c st :
  is_error (fst (call c st)) = true -> snd (call c st) = st.
Proof.
  destruct c as [name d t1 t2|a|a x desc t|a x desc t|a b x desc t]; simpl.
  - unfold create_account. destruct (float_gt0 d); simpl; discriminate.
  - unfold close_account. destruct (_accounts st !! a); [|reflexivity].
    destruct (Dne _ _); [reflexivity | simpl; discriminate].
  - unfold deposit. destruct (_accounts st !! a); [simpl; discriminate | reflexivity].
  - unfold withdraw. destruct (_accounts st !! a); [|reflexivity].
    destruct (Dlt _ _); [reflexivity | simpl; discriminate].
  - unfold transfer. destruct (_accounts st !! a); [|reflexivity].
    destruct (_accounts st !! b); [|reflexivity].
    destruct (String.eqb a b); [reflexivity|].
    destruct (Dlt _ _); [reflexivity | simpl; discriminate].
Qed.

(** X3: a deposit is refused exactly when the account is missing, whatever
    the amount; an accepted deposit appends one [deposit] transaction with
    the given description, sets the balance to [balance + amount] as the
    context rounds it, exactly so when no non-zero digit is dropped, and
    leaves every other account as it was. *)
Theorem deposit_refused_only_when_missing id x desc now st :
  (is_error (fst (deposit id x desc now st)) = true <-> _accounts st !! id = None) /\
  (_accounts st !! id = None ->
     deposit id x desc now st = ("Error: Account " +:+ id +:+ " not found.", st)) /\
  (forall account, _accounts st !! id = Some account ->
     let txn :=
       Transaction.mk (txn_id (_transaction_counter st + 1)) id x "deposit" now desc in
     let st' := snd (deposit id x desc now st) in
     _accounts st' !! id =
       Some (Account.mk (Account.id account) (Account.name account)
               (Dadd (Account.balance account) x)
               (Account.transactions account ++ [txn]) (Account.created_at account)) /\
     (forall other, other <> id -> _accounts st' !! other = _accounts st !! other) /\
     _transaction_counter st' = (_transaction_counter st + 1)%N /\
     (inexact (exact_add (Account.balance account) x) = false ->
        (Dval (Dadd (Account.balance account) x) ==
         Dval (Account.balance account) + Dval x)%Q)).
Proof.
  unfold deposit. destruct (_accounts st !! id) as [acc|] eqn:Hl.
  - split; [split; [simpl|]; discriminate|]. split; [discriminate|].
    intros account [= <-]. simpl. split; [apply lookup_insert_eq|].
    split; [intros other Hne; apply lookup_insert_ne; congruence|].
    split; [reflexivity | apply Dadd_exact].
  - split; [split; reflexivity|]. split; [reflexivity | discriminate].
Qed.

(** ** What a call keeps *)

(** X4: as long as an account stays in the store its id, name and creation
    time stay and its log only grows at the end; it leaves the store only
    through [close_account] on it at a zero balance, and it is replaced only
    when [create_account] issues its id again. *)
Theorem account_kept_or_closed c st id account :
  _accounts st !! id = Some account ->
  match _accounts (snd (call c st)) !! id with
  | Some account' =>
    (Account.id account' = Account.id account /\
     Account.name account' = Account.name account /\
     Account.created_at account' = Account.created_at account /\
     Account.transactions account `prefix_of` Account.transactions account') \/
    (is_create c = true /\ id = _generate_account_id st)
  | None => c = CloseAccount id /\ (Dval (Account.balance account) == 0)%Q
  end.
Proof.
  intros Hl.
  assert (Hsame : (Account.id account = Account.id account /\
     Account.name account = Account.name account /\
     Account.created_at account = Account.created_at account /\
     Account.transactions account `prefix_of` Account.transactions account))
    by (repeat split; reflexivity).
  destruct c as [name d t1 t2|a|a x desc t|a x desc t|a b x desc t]; simpl.
  - unfold create_account.
    destruct (decide (_generate_account_id st = id)) as [<-|Hne].
    + destruct (float_gt0 d); simpl; rewrite lookup_insert_eq; right; split; reflexivity.
    + destruct (float_gt0 d); simpl; rewrite lookup_insert_ne, Hl by assumption;
        left; exact Hsame.
  - unfold close_account. destruct (_accounts st !! a) as [acc|] eqn:Ha;
      [|simpl; rewrite Hl; left; exact Hsame].
    destruct (Dne _ _) eqn:Hne; [simpl; rewrite Hl; left; exact Hsame|]. simpl.
    destruct (decide (a = id)) as [->|Hd].
    + rewrite lookup_delete_eq. split; [reflexivity|].
      rewrite Hl in Ha. injection Ha as <-.
      apply Dne_spec in Hne. rewrite Hne. apply Dval_0_00.
    + rewrite lookup_delete_ne, Hl by assumption. left; exact Hsame.
  - unfold deposit. destruct (_accounts st !! a) as [acc|] eqn:Ha;
      [|simpl; rewrite Hl; left; exact Hsame]. simpl.
    destruct (decide (a = id)) as [->|Hd].
    + rewrite lookup_insert_eq. rewrite Hl in Ha. injection Ha as <-.
      left. simpl. repeat split. apply prefix_app_r. reflexivity.
    + rewrite lookup_insert_ne, Hl by assumption. left; exact Hsame.
  - unfold withdraw. destruct (_accounts st !! a) as [acc|] eqn:Ha;
      [|simpl; rewrite Hl; left; exact Hsame].
    destruct (Dlt _ _); [simpl; rewrite Hl; left; exact Hsame|]. simpl.
    destruct (decide (a = id)) as [->|Hd].
    + rewrite lookup_insert_eq. rewrite Hl in Ha. injection Ha as <-.
      left. simpl. repeat split. apply prefix_app_r. reflexivity.
    + rewrite lookup_insert_ne, Hl by assumption. left; exact Hsame.
  - unfold transfer. destruct (_accounts st !! a) as [acc|] eqn:Ha;
      [|simpl; rewrite Hl; left; exact Hsame].
    destruct (_accounts st !! b) as [acc'|] eqn:Hb; [|simpl; rewrite Hl; left; exact Hsame].
    destruct (String.eqb_spec a b) as [|Hab]; [simpl; rewrite Hl; left; exact Hsame|].
    destruct (Dlt _ _); [simpl; rewrite Hl; left; exact Hsame|]. simpl.
    destruct (decide (b = id)) as [->|Hd].
    + rewrite lookup_insert_eq. rewrite Hl in Hb. injection Hb as <-.
      left. simpl. repeat split. apply prefix_app_r. reflexivity.
    + rewrite lookup_insert_ne by assumption.
      destruct (decide (a = id)) as [->|Hd'].
      * rewrite lookup_insert_eq. rewrite Hl in Ha. injection Ha as <-.
        left. simpl. repeat split. apply prefix_app_r. reflexivity.
      * rewrite lookup_insert_ne, Hl by assumption. left; exact Hsame.
Qed.

(** ** Keys *)

Lemma call_well_keyed c st : well_keyed st -> well_keyed (snd (call c st)).
Proof.
  unfold well_keyed. intros Hinv.
  destruct c as [name d t1 t2|a|a x desc t|a x desc t|a b x desc t]; simpl.
  - unfold create_account, _generate_account_id.
    assert (Hj : exists j, (1 <= j)%N /\
              "ACC" +:+ format_06d (N.of_nat (size (_accounts st)) + 1) =
              "ACC" +:+ format_06d j).
    { eexists. split; [|reflexivity]. lia. }
    destruct (float_gt0 d); simpl; (apply map_Forall_insert_2; [|assumption]); simpl;
      (split; [reflexivity|]); (split; [|exact Hj]); repeat constructor.
  - unfold close_account. destruct (_accounts st !! a) as [acc|]; [|assumption].
    destruct (Dne _ _); simpl; [assumption|]. apply map_Forall_delete. assumption.
  - unfold deposit. destruct (_accounts st !! a) as [acc|] eqn:Ha; [|assumption].
    simpl. apply map_Forall_insert_2; [|assumption]. simpl.
    destruct (Hinv _ _ Ha) as (Hid & Hlog & Hj).
    split; [assumption|]. split; [|assumption].
    apply Forall_app. split; [assumption | repeat constructor].
  - unfold withdraw. destruct (_accounts st !! a) as [acc|] eqn:Ha; [|assumption].
    destruct (Dlt _ _); [assumption|].
    simpl. apply map_Forall_insert_2; [|assumption]. simpl.
    destruct (Hinv _ _ Ha) as (Hid & Hlog & Hj).
    split; [assumption|]. split; [|assumption].
    apply Forall_app. split; [assumption | repeat constructor].
  - unfold transfer. destruct (_accounts st !! a) as [acc|] eqn:Ha; [|assumption].
    destruct (_accounts st !! b) as [acc'|] eqn:Hb; [|assumption].
    destruct (String.eqb a b); [assumption|].
    destruct (Dlt _ _); [assumption|].
    destruct (Hinv _ _ Ha) as (Hid & Hlog & Hj).
    destruct (Hinv _ _ Hb) as (Hid' & Hlog' & Hj').
    simpl. apply map_Forall_insert_2; [|apply map_Forall_insert_2; [|assumption]]; simpl.
    + split; [assumption|]. split; [|assumption].
      apply Forall_app. split; [assumption | repeat constructor].
    + split; [assumption|]. split; [|assumption].
      apply Forall_app. split; [assumption | repeat constructor].
Qed.

(** X5: in every store reached from the empty one, an account's [id] field
    is the key it is stored under, every transaction of its log names that
    key as its [account_id], and the key is "ACC" and a number from 1 on six
    digits or more. *)
Theorem accounts_sit_under_their_id cs key account :
  _accounts (run cs empty_bank) !! key = Some account ->
  Account.id account = key /\
  Forall (fun txn => Transaction.account_id txn = key) (Account.transactions account) /\
  exists j, (1 <= j)%N /\ key = "ACC" +:+ format_06d j.
Proof.
  assert (H : forall st, well_keyed st -> well_keyed (run cs st)).
  { induction cs as [|c cs IH]; intros st Hst; simpl; [assumption|].
    apply IH, call_well_keyed. assumption. }
  intros Hl. apply (H empty_bank) in Hl; [exact Hl|].
  unfold well_keyed, empty_bank; simpl. apply map_Forall_empty.
Qed.

(** ** Transaction ids *)

Lemma lookup_snoc_inv {A} (l : list A) (x t : A) (i : nat) :
  (l ++ [x])%list !! i = Some t -> l !! i = Some t \/ (i = length l /\ t = x).
Proof.
  intros H. apply lookup_app_Some in H as [H|[Hle H]]; [left; assumption|].
  right. apply list_lookup_singleton_Some in H as [Hi ->]. split; [lia | reflexivity].
Qed.

Lemma txn_id_inj k1 k2 : txn_id k1 = txn_id k2 -> k1 = k2.
Proof. unfold txn_id. intros H. apply (app_inj_l "TXN"), format_06d_inj in H. exact H. Qed.

(** What a call logs: an entry of the new store is an entry of the old one,
    or carries a number the counter passed during the call, at a place that
    number determines. *)
Lemma call_logged c st :
  exists pos : N -> string * nat,
  forall id i txn,
    logged (snd (call c st)) id i txn ->
    logged st id i txn \/
    exists k,
      (_transaction_counter st < k <= _transaction_counter (snd (call c st)))%N /\
      Transaction.id txn = txn_id k /\ (id, i) = pos k.
Proof.
  assert (H1 : forall n, (n < n + 1 <= n + 1)%N) by (intros; lia).
  assert (H2 : forall n, (n < n + 1 <= n + 1 + 1)%N) by (intros; lia).
  assert (H3 : forall n, (n < n + 1 + 1 <= n + 1 + 1)%N) by (intros; lia).
  destruct c as [name d t1 t2|a|a x desc t|a x desc t|a b x desc t]; simpl.
  - exists (fun _ => (_generate_account_id st, 0%nat)).
    intros id i txn (acc & Hl & Hi). revert Hl Hi. unfold create_account.
    destruct (float_gt0 d); simpl; intros Hl Hi;
      (destruct (decide (_generate_account_id st = id)) as [<-|Hne];
       [rewrite lookup_insert_eq in Hl; injection Hl as <-; simpl in Hi
       |rewrite lookup_insert_ne in Hl by assumption; left; exists acc; split; assumption]).
    + right. apply list_lookup_singleton_Some in Hi as [-> <-].
      eexists. split; [apply H1|]. split; reflexivity.
    + rewrite lookup_nil in Hi. discriminate.
  - exists (fun _ => (a, 0%nat)).
    intros id i txn (acc & Hl & Hi). left. revert Hl. unfold close_account.
    destruct (_accounts st !! a) as [acc0|]; [|intros; exists acc; split; assumption].
    destruct (Dne _ _); simpl; [intros; exists acc; split; assumption|].
    intros Hl. apply lookup_delete_Some in Hl as [_ Hl]. exists acc; split; assumption.
  - unfold deposit. destruct (_accounts st !! a) as [acc0|] eqn:Ha;
      [|exists (fun _ => (a, 0%nat)); intros id i txn H; left; exact H].
    exists (fun _ => (a, length (Account.transactions acc0))).
    intros id i txn (acc & Hl & Hi). simpl in Hl.
    destruct (decide (a = id)) as [<-|Hne].
    + rewrite lookup_insert_eq in Hl. injection Hl as <-. simpl in Hi.
      apply lookup_snoc_inv in Hi as [Hi|[-> ->]].
      * left. exists acc0. split; assumption.
      * right. eexists. split; [apply H1|]. split; reflexivity.
    + rewrite lookup_insert_ne in Hl by assumption. left. exists acc. split; assumption.
  - unfold withdraw. destruct (_accounts st !! a) as [acc0|] eqn:Ha;
      [|exists (fun _ => (a, 0%nat)); intros id i txn H; left; exact H].
    destruct (Dlt _ _);
      [exists (fun _ => (a, 0%nat)); intros id i txn H; left; exact H|].
    exists (fun _ => (a, length (Account.transactions acc0))).
    intros id i txn (acc & Hl & Hi). simpl in Hl.
    destruct (decide (a = id)) as [<-|Hne].
    + rewrite lookup_insert_eq in Hl. injection Hl as <-. simpl in Hi.
      apply lookup_snoc_inv in Hi as [Hi|[-> ->]].
      * left. exists acc0. split; assumption.
      * right. eexists. split; [apply H1|]. split; reflexivity.
    + rewrite lookup_insert_ne in Hl by assumption. left. exists acc. split; assumption.
  - unfold transfer. destruct (_accounts st !! a) as [acc0|] eqn:Ha;
      [|exists (fun _ => (a, 0%nat)); intros id i txn H; left; exact H].
    destruct (_accounts st !! b) as [acc1|] eqn:Hb;
      [|exists (fun _ => (a, 0%nat)); intros id i txn H; left; exact H].
    destruct (String.eqb_spec a b) as [|Hab];
      [exists (fun _ => (a, 0%nat)); intros id i txn H; left; exact H|].
    destruct (Dlt _ _);
      [exists (fun _ => (a, 0%nat)); intros id i txn H; left; exact H|].
    exists (fun k => if N.eqb k (_transaction_counter st + 1)
                     then (a, length (Account.transactions acc0))
                     else (b, length (Account.transactions acc1))).
    intros id i txn (acc & Hl & Hi). simpl in Hl.
    destruct (decide (b = id)) as [<-|Hne].
    + rewrite lookup_insert_eq in Hl. injection Hl as <-. simpl in Hi.
      apply lookup_snoc_inv in Hi as [Hi|[-> ->]].
      * left. exists acc1. split; assumption.
      * right. eexists. split; [apply H3|]. split; [reflexivity|]. simpl.
        destruct (N.eqb_spec (_transaction_counter st + 1 + 1) (_transaction_counter st + 1));
          [exfalso; lia | reflexivity].
    + rewrite lookup_insert_ne in Hl by assumption.
      destruct (decide (a = id)) as [<-|Hne'].
      * rewrite lookup_insert_eq in Hl. injection Hl as <-. simpl in Hi.
        apply lookup_snoc_inv in Hi as [Hi|[-> ->]].
        -- left. exists acc0. split; assumption.
        -- right. eexists. split; [apply H2|]. split; [reflexivity|].
           rewrite N.eqb_refl. reflexivity.
      * rewrite lookup_insert_ne in Hl by assumption. left. exists acc. split; assumption.
Qed.

Lemma call_txn_ids_unique c st : txn_ids_unique st -> txn_ids_unique (snd (call c st)).
Proof.
  unfold txn_ids_unique. intros [Hnum Huniq].
  destruct (call_logged c st) as [pos Hstep].
  pose proof (call_counter_grows c st) as Hgrow.
  revert Hstep Hgrow. generalize (snd (call c st)). intros st' Hstep Hgrow.
  revert Hnum Hgrow Hstep. generalize (_transaction_counter st).
  generalize (_transaction_counter st'). intros n' n Hnum Hgrow Hstep.
  split.
  - intros id i txn Hlog. apply Hstep in Hlog as [Hold|(k & Hk & Hid & _)].
    + destruct (Hnum _ _ _ Hold) as (k & Hk & Hid). exists k. split; [lia | assumption].
    + exists k. split; [lia | assumption].
  - intros id1 i1 txn1 id2 i2 txn2 Hl1 Hl2 Heq.
    apply Hstep in Hl1 as [Hold1|(k1 & Hk1 & Hid1 & Hpos1)];
      apply Hstep in Hl2 as [Hold2|(k2 & Hk2 & Hid2 & Hpos2)].
    + exact (Huniq _ _ _ _ _ _ Hold1 Hold2 Heq).
    + exfalso. destruct (Hnum _ _ _ Hold1) as (k1 & Hk1 & Hid1).
      rewrite Hid1, Hid2 in Heq. apply txn_id_inj in Heq. lia.
    + exfalso. destruct (Hnum _ _ _ Hold2) as (k2 & Hk2 & Hid2).
      rewrite Hid1, Hid2 in Heq. apply txn_id_inj in Heq. lia.
    + rewrite Hid1, Hid2 in Heq. apply txn_id_inj in Heq. subst k2.
      rewrite <- Hpos2 in Hpos1. injection Hpos1 as -> ->. split; reflexivity.
Qed.

(** X6: in every store reached from the empty one no transaction id occurs
    twice, in one log or in two: entries with the same id are the same entry
    of the same account; and each id is "TXN" and a number between 1 and the
    counter. *)
Theorem transaction_ids_never_repeat cs id1 i1 txn1 id2 i2 txn2 :
  logged (run cs empty_bank) id1 i1 txn1 ->
  logged (run cs empty_bank) id2 i2 txn2 ->
  (Transaction.id txn1 = Transaction.id txn2 -> id1 = id2 /\ i1 = i2) /\
  exists k, (1 <= k <= _transaction_counter (run cs empty_bank))%N /\
            Transaction.id txn1 = "TXN" +:+ format_06d k.
Proof.
  assert (H : forall st, txn_ids_unique st -> txn_ids_unique (run cs st)).
  { induction cs as [|c cs IH]; intros st Hst; simpl; [assumption|].
    apply IH, call_txn_ids_unique. assumption. }
  assert (H0 : txn_ids_unique empty_bank).
  { split.
    - intros id i txn (acc & Hl & _). unfold empty_bank in Hl; simpl in Hl.
      rewrite lookup_empty in Hl. discriminate.
    - intros id1' i1' t1' id2' i2' t2' (acc & Hl & _). unfold empty_bank in Hl; simpl in Hl.
      rewrite lookup_empty in Hl. discriminate. }
  destruct (H _ H0) as [Hnum Huniq]. intros Hl1 Hl2. split.
  - exact (Huniq _ _ _ _ _ _ Hl1 Hl2).
  - exact (Hnum _ _ _ Hl1).
Qed.

(** ** Account ids while nothing is closed *)

Lemma insert_present {A} (m : gmap string A) (a : string) (v0 v : A) :
  m !! a = Some v0 ->
  size (<[a := v]> m) = size m /\
  forall key, is_Some (<[a := v]> m !! key) <-> is_Some (m !! key).
Proof.
  intros Ha. split; [apply map_size_insert_Some; eauto|].
  intros key. destruct (decide (a = key)) as [<-|Hne].
  - rewrite lookup_insert_eq, Ha. split; eauto.
  - rewrite lookup_insert_ne by assumption. reflexivity.
Qed.

Lemma keys_sequential_present (st : Bank) (a : string) (v0 : Account.t) acc n :
  _accounts st !! a = Some v0 ->
  keys_sequential st -> keys_sequential (mkBank (<[a := acc]> (_accounts st)) n).
Proof.
  intros Ha Hseq key. unfold keys_sequential in *. simpl.
  destruct (insert_present (_accounts st) a v0 acc Ha) as [-> Hk].
  rewrite Hk. apply Hseq.
Qed.

Lemma next_account_id_free st :
  keys_sequential st -> _accounts st !! _generate_account_id st = None.
Proof.
  intros Hseq. destruct (_accounts st !! _generate_account_id st) eqn:Hl; [|reflexivity].
  exfalso. destruct (proj1 (Hseq _) (mk_is_Some _ _ Hl)) as (j & Hj & Heq).
  unfold _generate_account_id in Heq.
  apply (app_inj_l "ACC"), format_06d_inj in Heq. lia.
Qed.

Lemma call_keys_sequential c st :
  is_close c = false -> keys_sequential st ->
  keys_sequential (snd (call c st)) /\
  size (_accounts (snd (call c st))) =
    ((if is_create c then 1 else 0) + size (_accounts st))%nat.
Proof.
  intros Hc Hseq.
  destruct c as [name d t1 t2|a|a x desc t|a x desc t|a b x desc t];
    simpl in *; try discriminate.
  - pose proof (next_account_id_free st Hseq) as Hfree.
    assert (Hgoal : forall acc n,
      keys_sequential (mkBank (<[_generate_account_id st := acc]> (_accounts st)) n) /\
      size (<[_generate_account_id st := acc]> (_accounts st)) = S (size (_accounts st))).
    { intros acc n. split; [|apply map_size_insert_None; assumption].
      intros key. unfold keys_sequential in Hseq. simpl.
      rewrite map_size_insert_None by assumption.
      destruct (decide (_generate_account_id st = key)) as [<-|Hne].
      - rewrite lookup_insert_eq. split; [intros _|eauto].
        exists (N.of_nat (size (_accounts st)) + 1)%N. split; [lia | reflexivity].
      - rewrite lookup_insert_ne, Hseq by assumption.
        split; intros (j & Hj & ->).
        + exists j. split; [lia | reflexivity].
        + exists j. split; [|reflexivity].
          assert (j <> N.of_nat (size (_accounts st)) + 1)%N; [|lia].
          intros ->. apply Hne. reflexivity. }
    unfold create_account. destruct (float_gt0 d); simpl; apply Hgoal.
  - unfold deposit. destruct (_accounts st !! a) as [acc|] eqn:Ha; [|split; trivial].
    simpl. split; [eapply keys_sequential_present; eassumption|].
    eapply insert_present; eassumption.
  - unfold withdraw. destruct (_accounts st !! a) as [acc|] eqn:Ha; [|split; trivial].
    destruct (Dlt _ _); [split; trivial|].
    simpl. split; [eapply keys_sequential_present; eassumption|].
    eapply insert_present; eassumption.
  - unfold transfer. destruct (_accounts st !! a) as [acc|] eqn:Ha; [|split; trivial].
    destruct (_accounts st !! b) as [acc'|] eqn:Hb; [|split; trivial].
    destruct (String.eqb_spec a b) as [|Hab]; [split; trivial|].
    destruct (Dlt _ _); [split; trivial|]. simpl.
    set (m1 := <[a := _]> (_accounts st)).
    assert (Hb1 : m1 !! b = Some acc') by (unfold m1; rewrite lookup_insert_ne; assumption).
    split.
    + apply (keys_sequential_present (mkBank m1 (_transaction_counter st + 1 + 1)) b acc');
        [exact Hb1|].
      eapply keys_sequential_present; eassumption.
    + rewrite (proj1 (insert_present m1 b acc' _ Hb1)). unfold m1.
      eapply insert_present; eassumption.
Qed.

(** X7: as long as no [close_account] is called, the store holds as many
    accounts as [create_account] was called, under the ids ACC000001,
    ACC000002, ... without gap, and the id the next [create_account] will
    take is free: no account is replaced. *)
Theorem ids_sequential_without_close cs :
  existsb is_close cs = false ->
  let st := run cs empty_bank in
  size (_accounts st) = length (filter (fun c => is_create c = true) cs) /\
  (forall key, is_Some (_accounts st !! key) <->
     exists j, (1 <= j <= N.of_nat (size (_accounts st)))%N /\
               key = "ACC" +:+ format_06d j) /\
  _accounts st !! _generate_account_id st = None.
Proof.
  intros Hnc.
  assert (H : forall st, existsb is_close cs = false -> keys_sequential st ->
            keys_sequential (run cs st) /\
            size (_accounts (run cs st)) =
              (length (filter (fun c => is_create c = true) cs) + size (_accounts st))%nat).
  { clear Hnc. induction cs as [|c cs IH]; intros st Hnc Hst; simpl in *; [split; trivial|].
    apply orb_false_iff in Hnc as [Hc Hcs].
    destruct (call_keys_sequential c st Hc Hst) as [Hk Hs].
    destruct (IH _ Hcs Hk) as [Hk' Hs']. split; [assumption|].
    rewrite Hs', Hs. rewrite filter_cons.
    destruct (decide (is_create c = true)) as [->|Hn]; simpl; [lia|].
    destruct (is_create c); [congruence | lia]. }
  assert (H0 : keys_sequential empty_bank).
  { intros key. unfold empty_bank; simpl. rewrite lookup_empty. split.
    - intros [? ?]; discriminate.
    - intros (j & Hj & _). rewrite map_size_empty in Hj. lia. }
  destruct (H empty_bank Hnc H0) as [Hk Hs]. simpl.
  split; [rewrite Hs; unfold empty_bank; simpl; rewrite map_size_empty; lia|].
  split; [exact Hk | apply next_account_id_free; exact Hk].
Qed.

(** ** How the tools compose *)

Lemma zero_coefficient_exact d : d_int d = 0 -> inexact d = false.
Proof. intros H. unfold inexact. rewrite H. reflexivity. Qed.

(** A difference of equal values is a zero, which no context rounds. *)
Lemma Dsub_equal_values x y : (Dval x == Dval y)%Q -> (Dval (Dsub x y) == 0)%Q.
Proof.
  intros Heq. rewrite Dsub_exact.
  - rewrite Heq. ring.
  - apply zero_coefficient_exact. apply Dne_spec in Heq.
    unfold Dne, Dcmp in Heq. unfold exact_add. cbn [d_int copy_negate d_exp].
    rewrite aligned_copy_negate.
    destruct (Z.compare_spec (aligned (Z.min (d_exp x) (d_exp y)) x)
                (aligned (Z.min (d_exp x) (d_exp y)) y)); (discriminate || lia).
Qed.

(** X8: on finite values (those of [Decimal]), withdrawing an amount equal
    to the balance is accepted and leaves a balance that [close_account]
    accepts: the account is then closed and gone from the store.  No
    rounding can get in the way. *)
Theorem withdraw_all_then_close id x desc now st account :
  _accounts st !! id = Some account ->
  (Dval x == Dval (Account.balance account))%Q ->
  let st1 := snd (withdraw id x desc now st) in
  is_error (fst (withdraw id x desc now st)) = false /\
  close_account id st1 =
    ("Account " +:+ id +:+ " has been closed successfully.",
     with_accounts st1 (delete id (_accounts st1))) /\
  _accounts (snd (close_account id st1)) !! id = None.
Proof.
  intros Hl Heq. unfold withdraw. rewrite Hl.
  destruct (Dlt (Account.balance account) x) eqn:Hlt.
  { exfalso. apply Dlt_spec in Hlt. rewrite Heq in Hlt. revert Hlt. apply Qlt_irrefl. }
  simpl. split; [reflexivity|].
  unfold close_account. simpl. rewrite lookup_insert_eq. simpl.
  assert (Hz : Dne (Dsub (Account.balance account) x) Decimal_0_00 = false).
  { apply Dne_spec. rewrite Dval_0_00. apply Dsub_equal_values. symmetry. exact Heq. }
  rewrite Hz. simpl. split; [reflexivity | apply lookup_delete_eq].
Qed.

(** X9: an accepted transfer that the context does not round moves money,
    it makes and loses none: the two balances together are worth what they
    were before. *)
Theorem transfer_conserves_total from_id to_id x desc now st A B :
  _accounts st !! from_id = Some A ->
  _accounts st !! to_id = Some B ->
  is_error (fst (transfer from_id to_id x desc now st)) = false ->
  rounds (Transfer from_id to_id x desc now) st = false ->
  exists A' B',
    _accounts (snd (transfer from_id to_id x desc now st)) !! from_id = Some A' /\
    _accounts (snd (transfer from_id to_id x desc now st)) !! to_id = Some B' /\
    (Dval (Account.balance A') + Dval (Account.balance B') ==
     Dval (Account.balance A) + Dval (Account.balance B))%Q.
Proof.
  intros HA HB. unfold transfer, rounds. rewrite HA, HB.
  destruct (String.eqb_spec from_id to_id) as [|Hne]; [discriminate|].
  destruct (Dlt (Account.balance A) x); [discriminate|].
  simpl. intros _ Hr. apply orb_false_iff in Hr as [Hout Hin].
  eexists. eexists.
  split; [rewrite lookup_insert_ne by congruence; apply lookup_insert_eq|].
  split; [apply lookup_insert_eq|]. simpl.
  rewrite Dsub_exact, Dadd_exact by assumption. ring.
Qed.

(** X10: on finite values (those of [Decimal]), a deposit followed by a
    withdrawal of the same amount, on an account whose balance is not
    negative and with no rounding on the way,
    is accepted, gives the balance back its value and leaves the two
    transactions at the end of the log, numbered one after the other. *)
Theorem deposit_then_withdraw_restores id x desc1 now1 desc2 now2 st account :
  _accounts st !! id = Some account ->
  (0 <= Dval (Account.balance account))%Q ->
  inexact (exact_add (Account.balance account) x) = false ->
  inexact (exact_add (Dadd (Account.balance account) x) (copy_negate x)) = false ->
  let st1 := snd (deposit id x desc1 now1 st) in
  let st2 := snd (withdraw id x desc2 now2 st1) in
  let n := _transaction_counter st in
  is_error (fst (withdraw id x desc2 now2 st1)) = false /\
  _transaction_counter st2 = (n + 1 + 1)%N /\
  exists account',
    _accounts st2 !! id = Some account' /\
    (Dval (Account.balance account') == Dval (Account.balance account))%Q /\
    Account.transactions account' =
      (Account.transactions account ++
       [Transaction.mk (txn_id (n + 1)) id x "deposit" now1 desc1;
        Transaction.mk (txn_id (n + 1 + 1)) id x "withdrawal" now2 desc2])%list.
Proof.
  intros Hl Hpos Hin Hout. unfold deposit. rewrite Hl. simpl.
  unfold withdraw. simpl. rewrite lookup_insert_eq. simpl.
  destruct (Dlt (Dadd (Account.balance account) x) x) eqn:Hlt.
  { exfalso. apply Dlt_spec in Hlt. rewrite Dadd_exact in Hlt by assumption.
    apply (Qlt_irrefl (Dval x)). eapply Qle_lt_trans; [|exact Hlt].
    rewrite <- (Qplus_0_l (Dval x)) at 1. apply Qplus_le_compat; [assumption|].
    apply Qle_refl. }
  simpl. split; [reflexivity|]. split; [reflexivity|].
  eexists. split; [apply lookup_insert_eq|]. simpl. split.
  - rewrite Dsub_exact, Dadd_exact by assumption. ring.
  - rewrite <- app_assoc. reflexivity.
Qed.

(** ** Reading back what was written *)

Lemma history_of_snoc strftime_minute id limit st account old txn :
  _accounts st !! id = Some account ->
  Account.transactions account = (old ++ [txn])%list ->
  1 <= limit ->
  get_transaction_history strftime_minute id limit st =
    join nl
      (["Transaction History for " +:+ id +:+ ":"; repeat_string "-" 50;
        history_line strftime_minute txn] ++
       map (history_line strftime_minute) (most_recent (Z.to_nat limit - 1) old) ++
       [repeat_string "-" 50;
        "Current Balance: $" +:+ format_2f (Account.balance account)])%list.
Proof.
  intros Hl Hlog Hlim. unfold get_transaction_history. rewrite Hl.
  assert (Hrev : rev (slice_from_neg limit (Account.transactions account)) =
                 txn :: most_recent (Z.to_nat limit - 1) old).
  { rewrite slice_newest_first by assumption. unfold most_recent.
    rewrite Hlog, rev_app_distr. simpl.
    destruct (Z.to_nat limit) as [|n] eqn:Hn; [lia|]. simpl.
    rewrite Nat.sub_0_r. reflexivity. }
  destruct (slice_from_neg limit (Account.transactions account)) as [|t0 l].
  - discriminate Hrev.
  - rewrite Hrev. simpl. rewrite <- !app_assoc. reflexivity.
Qed.

(** X11: an accepted deposit or withdrawal is the first entry of the
    history read next, "+" before a deposit's amount and "-" before a
    withdrawal's, followed by the older entries up to the limit, and the
    last line carries the new balance. *)
Theorem latest_move_tops_history strftime_minute id x desc now limit st account :
  _accounts st !! id = Some account ->
  1 <= limit ->
  let older :=
    map (history_line strftime_minute)
      (most_recent (Z.to_nat limit - 1) (Account.transactions account)) in
  let listing line balance :=
    join nl
      (["Transaction History for " +:+ id +:+ ":"; repeat_string "-" 50; line] ++
       older ++
       [repeat_string "-" 50; "Current Balance: $" +:+ format_2f balance])%list in
  get_transaction_history strftime_minute id limit (snd (deposit id x desc now st)) =
    listing ("  " +:+ strftime_minute now +:+ " | +$" +:+ format_2f x +:+ " | " +:+ desc)
      (Dadd (Account.balance account) x) /\
  (Dlt (Account.balance account) x = false ->
   get_transaction_history strftime_minute id limit (snd (withdraw id x desc now st)) =
     listing ("  " +:+ strftime_minute now +:+ " | -$" +:+ format_2f x +:+ " | " +:+ desc)
       (Dsub (Account.balance account) x)).
Proof.
  intros Hl Hlim older listing. split.
  - unfold deposit. rewrite Hl. simpl.
    erewrite history_of_snoc;
      [|simpl; apply lookup_insert_eq | reflexivity | assumption].
    reflexivity.
  - intros Hlt. unfold withdraw. rewrite Hl, Hlt. simpl.
    erewrite history_of_snoc;
      [|simpl; apply lookup_insert_eq | reflexivity | assumption].
    reflexivity.
Qed.

(** X12: an account can be read back as soon as it is created: under the
    id [create_account] reports, the balance resource gives [str] of the
    initial deposit and [get_account_info] the id, the name, the deposit on
    two decimals, the creation time and a count of one transaction, or none
    for a deposit that is not positive. *)
Theorem created_account_is_readable isoformat name d t1 t2 st :
  let id := _generate_account_id st in
  let st' := snd (create_account name d t1 t2 st) in
  fst (create_account name d t1 t2 st) =
    "Account created successfully. Account ID: " +:+ id +:+ ", Balance: $" +:+
    format_2f d /\
  get_balance_resource id st' = Decimal_str d /\
  get_account_info isoformat id st' =
    "Account ID: " +:+ id +:+ nl +:+ "Name: " +:+ name +:+ nl +:+
    "Balance: $" +:+ format_2f d +:+ nl +:+
    "Created: " +:+ isoformat t1 +:+ nl +:+
    "Transaction count: " +:+ (if float_gt0 d then "1" else "0").
Proof.
  unfold create_account, get_balance_resource, get_account_info.
  destruct (float_gt0 d); simpl; rewrite lookup_insert_eq; repeat split.
Qed.

(** X13: once an account is closed every tool answers that it is not
    found: deposit, withdrawal, closing again, history, and transfers from
    it or to it; the store stays as the closing left it, and the balance
    resource answers "0.00". *)
Theorem closed_account_is_gone strftime_minute id st account x desc now other limit :
  _accounts st !! id = Some account ->
  (Dval (Account.balance account) == 0)%Q ->
  let st' := snd (close_account id st) in
  let not_found := "Error: Account " +:+ id +:+ " not found." in
  deposit id x desc now st' = (not_found, st') /\
  withdraw id x desc now st' = (not_found, st') /\
  close_account id st' = (not_found, st') /\
  get_transaction_history strftime_minute id limit st' = not_found /\
  transfer id other x desc now st' =
    ("Error: Source account " +:+ id +:+ " not found.", st') /\
  (is_Some (_accounts st' !! other) ->
   transfer other id x desc now st' =
     ("Error: Destination account " +:+ id +:+ " not found.", st')) /\
  get_balance_resource id st' = "0.00".
Proof.
  intros Hl Hz st' not_found.
  assert (Hne : Dne (Account.balance account) Decimal_0_00 = false)
    by (apply Dne_spec; rewrite Dval_0_00; exact Hz).
  assert (Hgone : _accounts st' !! id = None).
  { unfold st', close_account. rewrite Hl, Hne. simpl. apply lookup_delete_eq. }
  clearbody st'. unfold not_found, deposit, withdraw, close_account, get_transaction_history, transfer,
    get_balance_resource. rewrite Hgone.
  repeat split. intros [acc Hacc]. rewrite Hacc. reflexivity.
Qed.

(** X14: with a limit at or above the number of transactions the history
    lists the whole log, newest first; an account without transaction gets
    the one sentence that says so. *)
Theorem history_of_whole_log strftime_minute id limit st account :
  _accounts st !! id = Some account ->
  1 <= limit ->
  Z.of_nat (length (Account.transactions account)) <= limit ->
  get_transaction_history strftime_minute id limit st =
    match Account.transactions account with
    | [] => "No transactions found for account " +:+ id +:+ "."
    | _ =>
      join nl
        (["Transaction History for " +:+ id +:+ ":"; repeat_string "-" 50] ++
         map (history_line strftime_minute) (rev (Account.transactions account)) ++
         [repeat_string "-" 50;
          "Current Balance: $" +:+ format_2f (Account.balance account)])%list
    end.
Proof.
  intros Hl Hlim Hlen. unfold get_transaction_history. rewrite Hl.
  assert (Hs : slice_from_neg limit (Account.transactions account) =
               Account.transactions account).
  { unfold slice_from_neg. destruct (Z.ltb_spec 0 limit); [|lia].
    replace (Z.to_nat _) with 0%nat by lia. reflexivity. }
  rewrite Hs. destruct (Account.transactions account); [reflexivity|].
  rewrite <- !app_assoc. reflexivity.
Qed.

(** ** The counter *)

(** X15: the counter moves by the ids a call takes and by nothing else: one
    for an accepted deposit or withdrawal and for an account opened with a
    positive deposit, two for an accepted transfer, none for a closing, for
    an account opened without deposit and for every refused call. *)
Theorem counter_counts_issued_ids c st :
  _transaction_counter (snd (call c st)) =
  (_transaction_counter st + (if is_error (fst (call c st)) then 0 else issues c))%N.
Proof.
  assert (H0 : forall n, n = (n + 0)%N) by (intros; lia).
  assert (H2 : forall n, (n + 1 + 1 = n + 2)%N) by (intros; lia).
  destruct c as [name d t1 t2|a|a x desc t|a x desc t|a b x desc t]; simpl.
  - unfold create_account. destruct (float_gt0 d); simpl; auto.
  - unfold close_account. destruct (_accounts st !! a); [|simpl; auto].
    destruct (Dne _ _); simpl; auto.
  - unfold deposit. destruct (_accounts st !! a); simpl; auto.
  - unfold withdraw. destruct (_accounts st !! a); [|simpl; auto].
    destruct (Dlt _ _); simpl; auto.
  - unfold transfer. destruct (_accounts st !! a); [|simpl; auto].
    destruct (_accounts st !! b); [|simpl; auto].
    destruct (String.eqb a b); [simpl; auto|].
    destruct (Dlt _ _); simpl; auto.
Qed.

(** * The further properties at the scenarios of the tests *)

Lemma refused_call_changes_nothing_witness :
  let c := Withdraw "ACC000001" d_50 "Withdrawal" 1 in
  is_error (fst (call c test_user)) = true /\ snd (call c test_user) = test_user.
Proof.
  intros c. split; [vm_compute; reflexivity|].
  apply (refused_call_changes_nothing c test_user). vm_compute; reflexivity.
Defined.

Lemma account_kept_or_closed_witness :
  let c := Deposit "ACC000001" d_25 "Deposit" 1 in
  exists account,
    _accounts test_user !! "ACC000001" = Some account /\
    match _accounts (snd (call c test_user)) !! "ACC000001" with
    | Some account' =>
      (Account.id account' = Account.id account /\
       Account.name account' = Account.name account /\
       Account.created_at account' = Account.created_at account /\
       Account.transactions account `prefix_of` Account.transactions account') \/
      (is_create c = true /\ "ACC000001" = _generate_account_id test_user)
    | None => c = CloseAccount "ACC000001" /\ (Dval (Account.balance account) == 0)%Q
    end.
Proof.
  intros c. eexists. split; [vm_compute; reflexivity|].
  apply (account_kept_or_closed c test_user "ACC000001"). vm_compute; reflexivity.
Defined.

Lemma accounts_sit_under_their_id_witness :
  exists account,
    _accounts alice_bob !! "ACC000002" = Some account /\
    Account.id account = "ACC000002" /\
    Forall (fun txn => Transaction.account_id txn = "ACC000002")
      (Account.transactions account) /\
    exists j, (1 <= j)%N /\ "ACC000002" = "ACC" +:+ format_06d j.
Proof.
  eexists. split; [vm_compute; reflexivity|].
  apply (accounts_sit_under_their_id
           [CreateAccount "Alice" d_100 0 0; CreateAccount "Bob" d_50 1 1] "ACC000002").
  vm_compute; reflexivity.
Defined.

Lemma transaction_ids_never_repeat_witness :
  let cs := [CreateAccount "Alice" d_100 0 0; CreateAccount "Bob" d_50 1 1;
             Transfer "ACC000001" "ACC000002" (mkDecimal false 300 (-1)) "Transfer" 2] in
  exists txn1 txn2,
    logged (run cs empty_bank) "ACC000001" 1 txn1 /\
    logged (run cs empty_bank) "ACC000002" 1 txn2 /\
    (Transaction.id txn1 = Transaction.id txn2 ->
     "ACC000001" = "ACC000002" /\ 1%nat = 1%nat) /\
    exists k, (1 <= k <= _transaction_counter (run cs empty_bank))%N /\
              Transaction.id txn1 = "TXN" +:+ format_06d k.
Proof.
  intros cs.
  assert (H1 : exists txn1, logged (run cs empty_bank) "ACC000001" 1 txn1).
  { eexists. eexists. split; vm_compute; reflexivity. }
  assert (H2 : exists txn2, logged (run cs empty_bank) "ACC000002" 1 txn2).
  { eexists. eexists. split; vm_compute; reflexivity. }
  destruct H1 as [txn1 H1]. destruct H2 as [txn2 H2].
  exists txn1, txn2. split; [exact H1|]. split; [exact H2|].
  exact (transaction_ids_never_repeat cs "ACC000001" 1 txn1 "ACC000002" 1 txn2 H1 H2).
Defined.

Lemma ids_sequential_without_close_witness :
  let cs := [CreateAccount "Alice" d_100 0 0; CreateAccount "Bob" d_50 1 1;
             Deposit "ACC000001" d_25 "Deposit" 2] in
  existsb is_close cs = false /\
  let st := run cs empty_bank in
  size (_accounts st) = length (filter (fun c => is_create c = true) cs) /\
  (forall key, is_Some (_accounts st !! key) <->
     exists j, (1 <= j <= N.of_nat (size (_accounts st)))%N /\
               key = "ACC" +:+ format_06d j) /\
  _accounts st !! _generate_account_id st = None.
Proof.
  intros cs. split; [reflexivity|].
  apply (ids_sequential_without_close cs). reflexivity.
Defined.

Lemma withdraw_all_then_close_witness :
  let x := mkDecimal false 100 (-1) in
  exists account,
    _accounts test_user !! "ACC000001" = Some account /\
    (Dval x == Dval (Account.balance account))%Q /\
    let st1 := snd (withdraw "ACC000001" x "Withdrawal" 1 test_user) in
    is_error (fst (withdraw "ACC000001" x "Withdrawal" 1 test_user)) = false /\
    close_account "ACC000001" st1 =
      ("Account " +:+ "ACC000001" +:+ " has been closed successfully.",
       with_accounts st1 (delete "ACC000001" (_accounts st1))) /\
    _accounts (snd (close_account "ACC000001" st1)) !! "ACC000001" = None.
Proof.
  intros x. eexists. split; [vm_compute; reflexivity|]. split; [vm_compute; reflexivity|].
  eapply (withdraw_all_then_close "ACC000001" x "Withdrawal" 1 test_user);
    vm_compute; reflexivity.
Defined.

Lemma transfer_conserves_total_witness :
  let x := mkDecimal false 300 (-1) in
  let result := transfer "ACC000001" "ACC000002" x "Transfer" 2 alice_bob in
  exists A B,
    _accounts alice_bob !! "ACC000001" = Some A /\
    _accounts alice_bob !! "ACC000002" = Some B /\
    is_error (fst result) = false /\
    rounds (Transfer "ACC000001" "ACC000002" x "Transfer" 2) alice_bob = false /\
    exists A' B',
      _accounts (snd result) !! "ACC000001" = Some A' /\
      _accounts (snd result) !! "ACC000002" = Some B' /\
      (Dval (Account.balance A') + Dval (Account.balance B') ==
       Dval (Account.balance A) + Dval (Account.balance B))%Q.
Proof.
  intros x result. eexists. eexists.
  split; [vm_compute; reflexivity|]. split; [vm_compute; reflexivity|].
  split; [vm_compute; reflexivity|]. split; [vm_compute; reflexivity|].
  apply (transfer_conserves_total "ACC000001" "ACC000002" x "Transfer" 2 alice_bob);
    vm_compute; reflexivity.
Defined.

Lemma deposit_then_withdraw_restores_witness :
  let x := d_25 in
  exists account,
    _accounts test_user !! "ACC000001" = Some account /\
    (0 <= Dval (Account.balance account))%Q /\
    inexact (exact_add (Account.balance account) x) = false /\
    inexact (exact_add (Dadd (Account.balance account) x) (copy_negate x)) = false /\
    let st1 := snd (deposit "ACC000001" x "Deposit" 1 test_user) in
    let st2 := snd (withdraw "ACC000001" x "Withdrawal" 2 st1) in
    let n := _transaction_counter test_user in
    is_error (fst (withdraw "ACC000001" x "Withdrawal" 2 st1)) = false /\
    _transaction_counter st2 = (n + 1 + 1)%N /\
    exists account',
      _accounts st2 !! "ACC000001" = Some account' /\
      (Dval (Account.balance account') == Dval (Account.balance account))%Q /\
      Account.transactions account' =
        (Account.transactions account ++
         [Transaction.mk (txn_id (n + 1)) "ACC000001" x "deposit" 1 "Deposit";
          Transaction.mk (txn_id (n + 1 + 1)) "ACC000001" x "withdrawal" 2
            "Withdrawal"])%list.
Proof.
  intros x. eexists. split; [vm_compute; reflexivity|].
  split; [vm_compute; discriminate|].
  split; [vm_compute; reflexivity|]. split; [vm_compute; reflexivity|].
  apply (deposit_then_withdraw_restores "ACC000001" x "Deposit" 1 "Withdrawal" 2
           test_user);
    [vm_compute; reflexivity | vm_compute; discriminate
    | vm_compute; reflexivity | vm_compute; reflexivity].
Defined.

Lemma latest_move_tops_history_witness :
  let strftime_minute := fun _ : datetime => "2026-01-01 00:00" in
  exists account,
    _accounts test_user !! "ACC000001" = Some account /\
    1 <= 10 /\
    get_transaction_history strftime_minute "ACC000001" 10
      (snd (deposit "ACC000001" d_25 "Deposit" 1 test_user)) =
      join nl
        (["Transaction History for " +:+ "ACC000001" +:+ ":"; repeat_string "-" 50;
          "  " +:+ strftime_minute 1 +:+ " | +$" +:+ format_2f d_25 +:+ " | " +:+
          "Deposit"] ++
         map (history_line strftime_minute)
           (most_recent (Z.to_nat 10 - 1) (Account.transactions account)) ++
         [repeat_string "-" 50;
          "Current Balance: $" +:+
          format_2f (Dadd (Account.balance account) d_25)])%list.
Proof.
  intros strftime_minute. eexists. split; [vm_compute; reflexivity|]. split; [lia|].
  apply (latest_move_tops_history strftime_minute "ACC000001" d_25 "Deposit" 1 10
           test_user); [vm_compute; reflexivity | lia].
Defined.

Lemma closed_account_is_gone_witness :
  let strftime_minute := fun _ : datetime => "2026-01-01 00:00" in
  let st := run [CreateAccount "Ann" d_0 0 0] empty_bank in
  exists account,
    _accounts st !! "ACC000001" = Some account /\
    (Dval (Account.balance account) == 0)%Q /\
    let st' := snd (close_account "ACC000001" st) in
    let not_found := "Error: Account " +:+ "ACC000001" +:+ " not found." in
    deposit "ACC000001" d_25 "Deposit" 1 st' = (not_found, st') /\
    withdraw "ACC000001" d_25 "Deposit" 1 st' = (not_found, st') /\
    close_account "ACC000001" st' = (not_found, st') /\
    get_transaction_history strftime_minute "ACC000001" 10 st' = not_found /\
    transfer "ACC000001" "ACC000002" d_25 "Deposit" 1 st' =
      ("Error: Source account " +:+ "ACC000001" +:+ " not found.", st') /\
    (is_Some (_accounts st' !! "ACC000002") ->
     transfer "ACC000002" "ACC000001" d_25 "Deposit" 1 st' =
       ("Error: Destination account " +:+ "ACC000001" +:+ " not found.", st')) /\
    get_balance_resource "ACC000001" st' = "0.00".
Proof.
  intros strftime_minute st. eexists. split; [vm_compute; reflexivity|].
  split; [vm_compute; reflexivity|].
  eapply (closed_account_is_gone strftime_minute "ACC000001" st);
    vm_compute; reflexivity.
Defined.

Lemma history_of_whole_log_witness :
  let strftime_minute := fun _ : datetime => "2026-01-01 00:00" in
  exists account,
    _accounts alice_bob !! "ACC000001" = Some account /\
    1 <= 10 /\
    Z.of_nat (length (Account.transactions account)) <= 10 /\
    get_transaction_history strftime_minute "ACC000001" 10 alice_bob =
      match Account.transactions account with
      | [] => "No transactions found for account " +:+ "ACC000001" +:+ "."
      | _ =>
        join nl
          (["Transaction History for " +:+ "ACC000001" +:+ ":"; repeat_string "-" 50] ++
           map (history_line strftime_minute) (rev (Account.transactions account)) ++
           [repeat_string "-" 50;
            "Current Balance: $" +:+ format_2f (Account.balance account)])%list
      end.
Proof.
  intros strftime_minute. eexists. split; [vm_compute; reflexivity|].
  split; [lia|]. split; [vm_compute; discriminate|].
  apply (history_of_whole_log strftime_minute "ACC000001" 10 alice_bob);
    [vm_compute; reflexivity | lia | vm_compute; discriminate].
Defined.
